(** * pyLDAP: the LDAPClient object of [ldapclient.c]

    A shallow embedding of the methods of the [LDAPClient] extension type:
    construction, connect, close, delete, the internal search routine and
    its three front ends, and the "who am I" operation.

    The C functions read and write the client object, set the
    interpreter's error indicator and call into libldap.  They are
    embedded as computations in a state monad whose state holds the client
    object, the error indicator and the list of libldap calls issued so
    far.  libldap, the CPython allocator and the helpers of [utils.c] and
    [ldapentry.c] are collaborators: their answers are fields of two type
    classes, so every statement holds for any server and any runtime. *)

From Stdlib Require Import ZArith List String Bool Lia.
Import ListNotations.
Local Open Scope string_scope.
Local Open Scope list_scope.
Local Open Scope Z_scope.
Set Warnings "-register-all".

(** ** Constants of [ldap.h] *)

Definition LDAP_SUCCESS : Z := 0.
Definition LDAP_NO_SUCH_OBJECT : Z := 32.            (* 0x20 *)
Definition LDAP_RES_SEARCH_ENTRY : Z := 100.         (* 0x64 *)
Definition LDAP_RES_SEARCH_RESULT : Z := 101.        (* 0x65 *)
Definition LDAP_RES_SEARCH_REFERENCE : Z := 115.     (* 0x73 *)
Definition LDAP_SCOPE_BASE : Z := 0.
Definition LDAP_SCOPE_ONELEVEL : Z := 1.
Definition LDAP_SCOPE_SUBTREE : Z := 2.
Definition LDAP_VERSION3 : Z := 3.
Definition LDAP_OPT_PROTOCOL_VERSION : Z := 17.      (* 0x0011 *)

(** ** Data *)

(** [LDAP *]: the address of libldap's connection structure, 0 for NULL. *)
Definition LDAP := Z.

(** [struct berval]; [bv_val] is a [char *] and may be NULL. *)
Record berval := mk_berval { bv_len : Z; bv_val : option string }.

(** [struct timeval]. *)
Record timeval := mk_timeval { tv_sec : Z; tv_usec : Z }.

(** [LDAPURLDesc]: only the scheme is read by this file. *)
Record LDAPURLDesc := mk_lud { lud_scheme : string }.

(** One message of a search response chain.  [ldap_msgtype] is the tag
    libldap reports for it; the rest is the undecoded content. *)
Record LDAPMessage := mk_msg {
  ldap_msgtype : Z;
  msg_dn : string;
  msg_attrs : list string
}.

(** The [LDAPEntry] object of [ldapentry.c], as far as this file looks
    into it: [attributes] is the Python list of its attribute names. *)
Record LDAPEntry := mk_entry { dn : string; attributes : list string }.

(** Python objects handled by the client. *)
Inductive PyObject : Type :=
| Py_None
| PyUnicode (s : string)
| PyList (items : list PyObject)
| PyLDAPEntry (e : LDAPEntry).

(** Exception types raised in this file. *)
Inductive PyExcType : Type :=
| LDAPError
| LDAPExc_NotConnected
| LDAPExc_UrlError
| PyExc_AttributeError
| PyExc_MemoryError
| PyExc_TypeError
| PyExc_UnicodeDecodeError.

Record PyErr := mk_err { exc_type : PyExcType; exc_msg : string }.

(** [LDAPClient] of [ldapclient.h]. *)
Record LDAPClient := mk_client {
  uri : option PyObject;     (* PyObject *uri, NULL after a failed init *)
  ld : LDAP;
  connected : Z;
  tls : Z
}.

Definition with_uri (u : option PyObject) (c : LDAPClient) : LDAPClient :=
  mk_client u (ld c) (connected c) (tls c).
Definition with_ld (h : LDAP) (c : LDAPClient) : LDAPClient :=
  mk_client (uri c) h (connected c) (tls c).
Definition with_connected (b : Z) (c : LDAPClient) : LDAPClient :=
  mk_client (uri c) (ld c) b (tls c).
Definition with_tls (b : Z) (c : LDAPClient) : LDAPClient :=
  mk_client (uri c) (ld c) (connected c) b.

(** ** Calls into libldap

    Every function of libldap the file calls on the connection is
    recorded, with the arguments that reach it.  The arguments the source
    always passes as NULL (server and client controls) are left out. *)
Inductive Call : Type :=
| c_initialize (uristr : string)
| c_set_option (h : LDAP) (opt : Z) (value : Z)
| c_tls_inplace (h : LDAP)
| c_start_tls_s (h : LDAP)
| c_sasl_interactive_bind_s (h : LDAP) (binddn : option string)
    (mech : string) (defaults : Z)
| c_sasl_bind_s (h : LDAP) (binddn : option string) (cred : berval)
| c_unbind_ext_s (h : LDAP)
| c_delete_ext_s (h : LDAP) (dnstr : string)
| c_search_ext_s (h : LDAP) (basestr : string) (scope : Z)
    (filterstr : option string) (attrs : option (list string))
    (attrsonly : Z) (timelimit : option timeval) (sizelimit : Z)
| c_whoami_s (h : LDAP).

(** ** Collaborators *)

(** libldap.  Each answer may depend on all calls issued before it. *)
Class LibLdap : Type := {
  ldap_url_parse : string -> Z * LDAPURLDesc;
  ldap_err2string : Z -> string;
  ldap_initialize : list Call -> string -> LDAP;
  ldap_tls_inplace : list Call -> LDAP -> Z;
  ldap_start_tls_s : list Call -> LDAP -> Z;
  ldap_sasl_interactive_bind_s :
    list Call -> LDAP -> option string -> string -> Z -> Z;
  ldap_sasl_bind_s : list Call -> LDAP -> option string -> berval -> Z;
  ldap_unbind_ext_s : list Call -> LDAP -> Z;
  ldap_delete_ext_s : list Call -> LDAP -> string -> Z;
  ldap_search_ext_s :
    list Call -> LDAP -> string -> Z -> option string ->
    option (list string) -> Z -> option timeval -> Z ->
    Z * list LDAPMessage;
  ldap_whoami_s : list Call -> LDAP -> Z * berval
}.

(** The CPython runtime and the helpers of [utils.c] and [ldapentry.c],
    none of which is part of [ldapclient.c].  The three [_ok] fields say
    whether an allocation succeeds; [unicode_error s] is the exception
    [PyUnicode_FromString] raises on [s], if any.

    [LDAPEntry_FromLDAPMessage] is taken to return an object: the source
    reads [entryobj->attributes] before it compares [entryobj] with NULL.
    [bool_address b] is the address of [Py_True] or [Py_False] cut to an
    [int] (see [LDAPClient_Search]). *)
Class Runtime : Type := {
  list_new_ok : bool;
  list_append_ok : list PyObject -> PyObject -> bool;
  malloc_ok : bool;
  unicode_error : string -> option PyErr;
  PyObject2char : option PyObject -> option string;
  PyList2StringList : option PyObject -> option (list string);
  create_sasl_defaults :
    LDAP -> string -> option string -> option string -> string ->
    option string -> option Z;
  LDAPEntry_FromLDAPMessage : LDAPMessage -> LDAPClient -> LDAPEntry;
  lud_err2string : Z -> string;
  bool_address : bool -> Z
}.

(** ** The state monad *)

Record State := mk_state {
  self : LDAPClient;
  pyerr : option PyErr;      (* the interpreter's error indicator *)
  log : list Call            (* libldap calls so far, oldest first *)
}.

Definition M (A : Type) : Type := State -> A * State.

Definition ret {A : Type} (a : A) : M A := fun st => (a, st).

Definition bind {A B : Type} (m : M A) (k : A -> M B) : M B :=
  fun st => let (a, st') := m st in k a st'.

Notation "x <- m ;; k" := (bind m (fun x => k))
  (at level 61, m at next level, right associativity).
Notation "m ;; k" := (bind m (fun _ => k))
  (at level 61, right associativity).

Definition get_self : M LDAPClient := fun st => (self st, st).

Definition modify_self (f : LDAPClient -> LDAPClient) : M unit :=
  fun st => (tt, mk_state (f (self st)) (pyerr st) (log st)).

Definition PyErr_SetString (ty : PyExcType) (msg : string) : M unit :=
  fun st => (tt, mk_state (self st) (Some (mk_err ty msg)) (log st)).

Definition PyErr_Set (e : PyErr) : M unit :=
  fun st => (tt, mk_state (self st) (Some e) (log st)).

(** [PyErr_NoMemory] raises MemoryError and returns NULL. *)
Definition PyErr_NoMemory : M (option PyObject) :=
  PyErr_SetString PyExc_MemoryError "" ;; ret None.

(** A call into libldap: the answer is computed from the calls made so
    far, and the call is appended to them. *)
Definition libldap {A : Type} (c : Call) (answer : list Call -> A) : M A :=
  fun st => (answer (log st), mk_state (self st) (pyerr st) (log st ++ [c])).

(** Arguments as [PyArg_ParseTupleAndKeywords] delivers them.  When the
    call does not match the format the parser raises and returns 0. *)
Inductive Parsed (A : Type) : Type :=
| ParseError (e : PyErr)
| ParseOk (a : A).
Arguments ParseError {A} e.
Arguments ParseOk {A} a.

Definition PyArg_ParseTupleAndKeywords {A : Type} (p : Parsed A)
  : M (option A) :=
  match p with
  | ParseError e => PyErr_Set e ;; ret None
  | ParseOk a => ret (Some a)
  end.

Definition not_connected_msg : string :=
  "Client has to connect to the server first.".

Section Client.

Context {L : LibLdap} {R : Runtime}.

(** [PyUnicode_FromString]. *)
Definition PyUnicode_FromString (s : string) : M (option PyObject) :=
  match unicode_error s with
  | Some e => PyErr_Set e ;; ret None
  | None => ret (Some (PyUnicode s))
  end.

(** [PyList_New(0)]. *)
Definition PyList_New0 : option (list PyObject) :=
  if list_new_ok then Some [] else None.

(** ** [LDAPClient_DelEntryStringDN] *)

Definition LDAPClient_DelEntryStringDN (dnstr : option string) : M Z :=
  s <- get_self ;;
  if connected s =? 0 then
    PyErr_SetString LDAPExc_NotConnected not_connected_msg ;; ret (-1)
  else
    match dnstr with
    | Some d =>
        rc <- libldap (c_delete_ext_s (ld s) d)
                (fun h => ldap_delete_ext_s h (ld s) d) ;;
        if negb (rc =? LDAP_SUCCESS) then
          PyErr_SetString LDAPError (ldap_err2string rc) ;; ret (-1)
        else ret 0
    | None => ret 0
    end.

(** [LDAPClient_DelEntry], format ["s"]. *)
Definition LDAPClient_DelEntry (args : Parsed string) : M (option PyObject) :=
  a <- PyArg_ParseTupleAndKeywords args ;;
  match a with
  | None =>
      PyErr_SetString PyExc_AttributeError "Wrong parameter." ;; ret None
  | Some dnstr =>
      r <- LDAPClient_DelEntryStringDN (Some dnstr) ;;
      if negb (r =? 0) then ret None else ret (Some Py_None)
  end.

(** ** [LDAPClient_init], format ["|sO!"] *)

Record InitArgs := mk_init_args {
  init_uristr : option string;
  init_tlso : option bool
}.

Definition PyObject_IsTrue (b : bool) : Z := if b then 1 else 0.

(** Set default uri. *)
Definition init_uri (a : InitArgs) : string :=
  match init_uristr a with
  | None => "ldap://localhost:389/"
  | Some u => u
  end.

Definition LDAPClient_init (args : Parsed InitArgs) : M Z :=
  a <- PyArg_ParseTupleAndKeywords args ;;
  match a with
  | None => ret (-1)
  | Some a =>
      let uristr := init_uri a in
      let tls0 :=
        match init_tlso a with
        | Some b => PyObject_IsTrue b
        | None => 0
        end in
      let (rc, lud) := ldap_url_parse uristr in
      if negb (rc =? 0) then
        PyErr_SetString LDAPExc_UrlError (lud_err2string rc) ;; ret (-1)
      else
        (* Save uri *)
        u <- PyUnicode_FromString uristr ;;
        modify_self (with_uri u) ;;
        match u with
        | None => PyErr_NoMemory ;; ret (-1)
        | Some _ =>
            modify_self (with_connected 0) ;;
            modify_self (with_tls tls0) ;;
            (* If connection uses SSL set TLS to 0. *)
            (if "ldaps" =? lud_scheme lud then modify_self (with_tls 0)
             else ret tt)%string ;;
            ret 0
        end
  end.

(** ** [LDAPClient_Connect], format ["|ssssss"] *)

Record ConnectArgs := mk_connect_args {
  binddn : option string;
  pswstr : option string;
  mech : option string;
  authzid : option string;
  realm : option string;
  authcid : option string
}.

Definition strlen (s : string) : Z := Z.of_nat (String.length s).

(** The part of [LDAPClient_Connect] from the choice of the bind on. *)
Definition Connect_bind (a : ConnectArgs) : M (option PyObject) :=
  s <- get_self ;;
  let finish (rc : Z) : M (option PyObject) :=
    if negb (rc =? LDAP_SUCCESS) then
      PyErr_SetString LDAPError (ldap_err2string rc) ;; ret None
    else
      modify_self (with_connected 1) ;; ret (Some Py_None) in
  match mech a with
  | Some m =>
      (* Mechanism is set, use SASL interactive bind. *)
      let psw := match pswstr a with None => "" | Some p => p end in
      match create_sasl_defaults (ld s) m (realm a) (authcid a) psw
              (authzid a) with
      | None => ret None
      | Some defaults =>
          rc <- libldap
                  (c_sasl_interactive_bind_s (ld s) (binddn a) m defaults)
                  (fun h => ldap_sasl_interactive_bind_s h (ld s) (binddn a)
                              m defaults) ;;
          finish rc
      end
  | None =>
      let passwd :=
        mk_berval (match pswstr a with None => 0 | Some p => strlen p end)
                  (pswstr a) in
      rc <- libldap (c_sasl_bind_s (ld s) (binddn a) passwd)
              (fun h => ldap_sasl_bind_s h (ld s) (binddn a) passwd) ;;
      finish rc
  end.

Definition LDAPClient_Connect (args : Parsed ConnectArgs)
  : M (option PyObject) :=
  a <- PyArg_ParseTupleAndKeywords args ;;
  match a with
  | None =>
      PyErr_SetString PyExc_AttributeError
        "Wrong parameters (binddn<str>, password<str>)" ;;
      ret None
  | Some a =>
      s <- get_self ;;
      (* Get the LDAP URI. *)
      match PyObject2char (uri s) with
      | None => ret None
      | Some uristr =>
          h <- libldap (c_initialize uristr)
                 (fun hist => ldap_initialize hist uristr) ;;
          modify_self (with_ld h) ;;
          libldap (c_set_option h LDAP_OPT_PROTOCOL_VERSION LDAP_VERSION3)
            (fun _ => tt) ;;
          (* Start TLS, if it necessary. *)
          start <- (if tls s =? 1 then
                      r <- libldap (c_tls_inplace h)
                             (fun hist => ldap_tls_inplace hist h) ;;
                      ret (r =? 0)
                    else ret false) ;;
          if (start : bool) then
            rc <- libldap (c_start_tls_s h)
                    (fun hist => ldap_start_tls_s hist h) ;;
            if negb (rc =? LDAP_SUCCESS) then
              PyErr_SetString LDAPError (ldap_err2string rc) ;; ret None
            else Connect_bind a
          else Connect_bind a
      end
  end.

(** ** [LDAPClient_Close] *)

Definition LDAPClient_Close : M (option PyObject) :=
  s <- get_self ;;
  if negb (connected s =? 0) then
    rc <- libldap (c_unbind_ext_s (ld s))
            (fun h => ldap_unbind_ext_s h (ld s)) ;;
    if negb (rc =? LDAP_SUCCESS) then
      PyErr_SetString LDAPError (ldap_err2string rc) ;; ret None
    else
      modify_self (with_connected 0) ;; ret (Some Py_None)
  else ret (Some Py_None).

(** ** [searching] *)

Definition PyList_Size (l : list string) : Z := Z.of_nat (List.length l).

(** The loop over the response chain, from [ldap_first_message] along
    [ldap_next_message]; [entrylist] is the content of the list object
    built so far. *)
Fixpoint search_messages (firstonly : Z) (msgs : list LDAPMessage)
    (entrylist : list PyObject) : M (option PyObject) :=
  match msgs with
  | [] => ret (Some (PyList entrylist))
  | entry :: rest =>
      let rc := ldap_msgtype entry in
      if rc =? LDAP_RES_SEARCH_ENTRY then
        s <- get_self ;;
        let entryobj := LDAPEntry_FromLDAPMessage entry s in
        (* Remove useless LDAPEntry. *)
        if PyList_Size (attributes entryobj) =? 0 then
          search_messages firstonly rest entrylist
        (* Return with the first entry. *)
        else if firstonly =? 1 then
          ret (Some (PyLDAPEntry entryobj))
        else if negb (list_append_ok entrylist (PyLDAPEntry entryobj)) then
          PyErr_NoMemory
        else
          search_messages firstonly rest
            (entrylist ++ [PyLDAPEntry entryobj])
      else if rc =? LDAP_RES_SEARCH_REFERENCE then
        search_messages firstonly rest entrylist
      else
        search_messages firstonly rest entrylist
  end.

(** The time limit handed to libldap: a [timeval] is allocated only for a
    positive [timeout]; a failed [malloc] leaves the pointer NULL. *)
Definition search_timelimit (timeout : Z) : option timeval :=
  if 0 <? timeout then
    if malloc_ok then Some (mk_timeval timeout 0) else None
  else None.

(** The filter handed to libldap: an empty filter string is set to NULL. *)
Definition search_filter (filterstr : option string) : option string :=
  match filterstr with
  | None => None
  | Some f => if strlen f =? 0 then None else Some f
  end.

Definition searching (basestr : string) (scope : Z)
    (filterstr : option string) (attrs : option (list string))
    (attrsonly firstonly timeout sizelimit : Z) : M (option PyObject) :=
  match PyList_New0 with
  | None => PyErr_NoMemory
  | Some entrylist =>
      let timelimit := search_timelimit timeout in
      let filterstr := search_filter filterstr in
      s <- get_self ;;
      r <- libldap
             (c_search_ext_s (ld s) basestr scope filterstr attrs attrsonly
                timelimit sizelimit)
             (fun h => ldap_search_ext_s h (ld s) basestr scope filterstr
                         attrs attrsonly timelimit sizelimit) ;;
      let (rc, res) := r : Z * list LDAPMessage in
      if rc =? LDAP_NO_SUCH_OBJECT then ret None
      else if negb (rc =? LDAP_SUCCESS) then
        PyErr_SetString LDAPError (ldap_err2string rc) ;; ret None
      else
        (* Iterate over the response LDAP messages. *)
        search_messages firstonly res entrylist
  end.

(** ** [LDAPClient_GetEntry], format ["s"] *)

Definition LDAPClient_GetEntry (args : Parsed string) : M (option PyObject) :=
  s <- get_self ;;
  if connected s =? 0 then
    PyErr_SetString LDAPExc_NotConnected not_connected_msg ;; ret None
  else
    a <- PyArg_ParseTupleAndKeywords args ;;
    match a with
    | None =>
        PyErr_SetString PyExc_AttributeError "Wrong parameter." ;; ret None
    | Some dnstr =>
        entry <- searching dnstr LDAP_SCOPE_BASE None None 0 1 0 0 ;;
        match entry with
        | None => ret (Some Py_None)
        | Some e => ret (Some e)
        end
    end.

(** ** [LDAPClient_GetRootDSE] *)

Definition rootdse_attrs : list string :=
  ["namingContexts"; "altServer"; "supportedExtension"; "supportedControl";
   "supportedSASLMechanisms"; "supportedLDAPVersion"].

Definition LDAPClient_GetRootDSE : M (option PyObject) :=
  s <- get_self ;;
  if connected s =? 0 then
    PyErr_SetString LDAPExc_NotConnected not_connected_msg ;; ret None
  else
    searching "" LDAP_SCOPE_BASE (Some "(objectclass=*)")
      (Some rootdse_attrs) 0 1 0 0.

(** ** [LDAPClient_Search], format ["si|zOiiO!"]

    [timeout] and [sizelimit] are declared without an initialiser and the
    parser stores into them only when the argument is given: [Automatic]
    holds what the two variables contain on entry.  [attrsonly] starts at
    0; the parser is handed its address for the ["O!"] unit, so when the
    argument is given it holds the address of the bool object, while
    [attrsonlyo] stays NULL (the bytes written past the [int] are not
    modelled). *)

Record SearchArgs := mk_search_args {
  sa_base : string;
  sa_scope : Z;
  sa_filter : option string;       (* absent or None: NULL *)
  sa_attrlist : option PyObject;
  sa_timeout : option Z;
  sa_sizelimit : option Z;
  sa_attrsonly : option bool
}.

Record Automatic := mk_automatic {
  auto_timeout : Z;
  auto_sizelimit : Z
}.

Definition LDAPClient_Search (auto : Automatic) (args : Parsed SearchArgs)
  : M (option PyObject) :=
  s <- get_self ;;
  if connected s =? 0 then
    PyErr_SetString LDAPExc_NotConnected not_connected_msg ;; ret None
  else
    a <- PyArg_ParseTupleAndKeywords args ;;
    match a with
    | None =>
        PyErr_SetString PyExc_AttributeError
          "Wrong parameters (base<str>, scope<str> [, filter<str>, attrlist<List>, timeout<int>, attrsonly<bool>])." ;;
        ret None
    | Some a =>
        let timeout :=
          match sa_timeout a with Some t => t | None => auto_timeout auto end in
        let sizelimit :=
          match sa_sizelimit a with
          | Some n => n
          | None => auto_sizelimit auto
          end in
        let attrsonly :=
          match sa_attrsonly a with
          | Some b => bool_address b
          | None => 0
          end in
        searching (sa_base a) (sa_scope a) (sa_filter a)
          (PyList2StringList (sa_attrlist a)) attrsonly 0 timeout sizelimit
    end.

(** ** [LDAPClient_Whoami]

    [ldap_whoami_s] is taken to set [authzid] when it reports success: the
    source reads [authzid->bv_len] without a test. *)

Definition LDAPClient_Whoami : M (option PyObject) :=
  s <- get_self ;;
  if connected s =? 0 then
    PyErr_SetString LDAPExc_NotConnected not_connected_msg ;; ret None
  else
    r <- libldap (c_whoami_s (ld s)) (fun h => ldap_whoami_s h (ld s)) ;;
    let (rc, authzid) := r : Z * berval in
    if negb (rc =? LDAP_SUCCESS) then
      PyErr_SetString LDAPError (ldap_err2string rc) ;; ret None
    else
      let authzid :=
        if bv_len authzid =? 0 then mk_berval 6 (Some "anonym")
        else authzid in
      match bv_val authzid with
      | Some v => PyUnicode_FromString v
      | None => ret None           (* a NULL [bv_val]: no string to read *)
      end.

(** ** [LDAPClient_new]

    The client of the state is the object [tp_alloc] has just returned.
    [tp_alloc] is taken to return one: with NULL the source skips the
    first block and then writes [self->connected] through the null
    pointer. *)

Definition LDAPClient_new : M (option LDAPClient) :=
  (* Create az empty python string for uri. *)
  u <- PyUnicode_FromString "" ;;
  modify_self (with_uri u) ;;
  match u with
  | None => ret None
  | Some _ =>
      modify_self (with_connected 0) ;;
      modify_self (with_tls 0) ;;
      s <- get_self ;;
      ret (Some s)
  end.

(** ** The method table [LDAPClient_methods] *)

Inductive MethodCall : Type :=
| m_close
| m_connect (args : Parsed ConnectArgs)
| m_del_entry (args : Parsed string)
| m_get_entry (args : Parsed string)
| m_get_rootDSE
| m_search (auto : Automatic) (args : Parsed SearchArgs)
| m_whoami.

Definition invoke (m : MethodCall) : M (option PyObject) :=
  match m with
  | m_close => LDAPClient_Close
  | m_connect args => LDAPClient_Connect args
  | m_del_entry args => LDAPClient_DelEntry args
  | m_get_entry args => LDAPClient_GetEntry args
  | m_get_rootDSE => LDAPClient_GetRootDSE
  | m_search auto args => LDAPClient_Search auto args
  | m_whoami => LDAPClient_Whoami
  end.

End Client.

Arguments Connect_bind : simpl never.

(** ** What the specification says a search returns

    The entries of a collect-all result, in the words of the
    specification: of the messages of the response, in arrival order,
    those that are search-result entries are decoded, and the decoded
    entries with no attribute are dropped. *)

Definition is_search_entry (m : LDAPMessage) : bool :=
  ldap_msgtype m =? LDAP_RES_SEARCH_ENTRY.

Definition is_search_reference (m : LDAPMessage) : bool :=
  ldap_msgtype m =? LDAP_RES_SEARCH_REFERENCE.

Definition has_attributes (e : LDAPEntry) : bool :=
  match attributes e with
  | [] => false
  | _ :: _ => true
  end.

Definition surviving_entries {R : Runtime} (s : LDAPClient)
    (res : list LDAPMessage) : list LDAPEntry :=
  filter has_attributes
    (map (fun m => LDAPEntry_FromLDAPMessage m s)
       (filter is_search_entry res)).

(** The status libldap gives to a StartTLS or bind call issued after the
    calls [hist]; no status for the other calls. *)
Definition status_of {L : LibLdap} (hist : list Call) (c : Call) : option Z :=
  match c with
  | c_start_tls_s h => Some (ldap_start_tls_s hist h)
  | c_sasl_interactive_bind_s h b m d =>
      Some (ldap_sasl_interactive_bind_s hist h b m d)
  | c_sasl_bind_s h b cred => Some (ldap_sasl_bind_s hist h b cred)
  | _ => None
  end.

(** What [LDAPClient_Connect] promises about a run that started in [st]
    and ended with result and state [out]. *)
Definition connect_post {L : LibLdap} (st : State) (out : option PyObject * State) : Prop :=
  (forall hist c post rc,
      log (snd out) = hist ++ c :: post ->
      (List.length (log st) <= List.length hist)%nat ->
      status_of hist c = Some rc ->
      rc <> LDAP_SUCCESS ->
      fst out = None
      /\ pyerr (snd out) = Some (mk_err LDAPError (ldap_err2string rc))
      /\ connected (self (snd out)) = connected (self st))
  /\ (fst out = None -> connected (self (snd out)) = connected (self st))
  /\ (fst out <> None ->
      fst out = Some Py_None
      /\ connected (self (snd out)) = 1
      /\ pyerr (snd out) = pyerr st).

(** ** Kinds of calls *)

Definition is_bind_call (c : Call) : bool :=
  match c with
  | c_sasl_interactive_bind_s _ _ _ _ | c_sasl_bind_s _ _ _ => true
  | _ => false
  end.

Definition is_tls_call (c : Call) : bool :=
  match c with
  | c_tls_inplace _ | c_start_tls_s _ => true
  | _ => false
  end.

(** The calls a method of the table is there to make. *)
Definition own_call (m : MethodCall) (c : Call) : bool :=
  match m, c with
  | m_close, c_unbind_ext_s _ => true
  | m_connect _, (c_initialize _ | c_set_option _ _ _ | c_tls_inplace _
                  | c_start_tls_s _ | c_sasl_interactive_bind_s _ _ _ _
                  | c_sasl_bind_s _ _ _) => true
  | m_del_entry _, c_delete_ext_s _ _ => true
  | (m_get_entry _ | m_get_rootDSE | m_search _ _),
    c_search_ext_s _ _ _ _ _ _ _ _ => true
  | m_whoami, c_whoami_s _ => true
  | _, _ => false
  end.

Definition is_connect (m : MethodCall) : bool :=
  match m with
  | m_connect _ => true
  | _ => false
  end.

(** The methods that test the [connected] flag before anything that can
    fail: for [del_entry] this needs arguments the parser accepts, as that
    method parses first. *)
Definition guarded (m : MethodCall) : bool :=
  match m with
  | m_del_entry (ParseOk _) => true
  | m_get_entry _ | m_get_rootDSE | m_search _ _ | m_whoami => true
  | _ => false
  end.

(** The state a guarded method leaves when it refuses to run. *)
Definition refused (st : State) : State :=
  mk_state (self st)
    (Some (mk_err LDAPExc_NotConnected not_connected_msg)) (log st).

(** The connection a call is made on. *)
Definition call_handle (c : Call) : option LDAP :=
  match c with
  | c_initialize _ => None
  | c_set_option h _ _ | c_tls_inplace h | c_start_tls_s h
  | c_sasl_interactive_bind_s h _ _ _ | c_sasl_bind_s h _ _
  | c_unbind_ext_s h | c_delete_ext_s h _
  | c_search_ext_s h _ _ _ _ _ _ _ | c_whoami_s h => Some h
  end.

(** The bind call [Connect_bind] makes for the arguments [a] on the
    handle [h], in the words of the source comment: a SASL interactive
    bind when a mechanism is set, a simple bind with the password as
    credential otherwise. *)
Definition bind_call_for {R : Runtime} (a : ConnectArgs) (h : LDAP)
    (b : Call) : Prop :=
  match mech a with
  | Some m =>
      exists d,
        create_sasl_defaults h m (realm a) (authcid a)
          (match pswstr a with None => "" | Some p => p end) (authzid a)
        = Some d
        /\ b = c_sasl_interactive_bind_s h (binddn a) m d
  | None =>
      b = c_sasl_bind_s h (binddn a)
            (mk_berval
               (match pswstr a with None => 0 | Some p => strlen p end)
               (pswstr a))
  end.

(** The TLS step of a connect that started in [st], on the handle [h],
    after the calls [pro]: the calls it adds, and whether the bind step is
    entered after it. *)
Inductive tls_phase {L : LibLdap} (st : State) (h : LDAP) (pro : list Call)
  : list Call -> bool -> Prop :=
| tls_not_requested :
    tls (self st) <> 1 ->
    tls_phase st h pro [] true
| tls_in_place :
    tls (self st) = 1 ->
    ldap_tls_inplace (log st ++ pro) h <> 0 ->
    tls_phase st h pro [c_tls_inplace h] true
| tls_started :
    tls (self st) = 1 ->
    ldap_tls_inplace (log st ++ pro) h = 0 ->
    ldap_start_tls_s (log st ++ pro ++ [c_tls_inplace h]) h = LDAP_SUCCESS ->
    tls_phase st h pro [c_tls_inplace h; c_start_tls_s h] true
| tls_failed :
    tls (self st) = 1 ->
    ldap_tls_inplace (log st ++ pro) h = 0 ->
    ldap_start_tls_s (log st ++ pro ++ [c_tls_inplace h]) h <> LDAP_SUCCESS ->
    tls_phase st h pro [c_tls_inplace h; c_start_tls_s h] false.

(** The state [searching] leaves after [PyErr_NoMemory]. *)
Definition out_of_memory (st : State) : State :=
  mk_state (self st) (Some (mk_err PyExc_MemoryError "")) (log st).

(** ** A concrete server and runtime

    A directory answering every request with [demo_rc] and, for a search,
    the chain [demo_res]; the entry builder copies the name and the
    attribute names of the message; no allocation fails. *)

Definition demo_ldap (demo_rc : Z) (demo_res : list LDAPMessage)
    (ident : berval) : LibLdap := {|
  ldap_url_parse := fun u =>
    if prefix "ldaps://" u then (0, mk_lud "ldaps")
    else if prefix "ldap://" u then (0, mk_lud "ldap")
    else (1, mk_lud "");
  ldap_err2string := fun rc =>
    if rc =? 32 then "No such object"
    else if rc =? 49 then "Invalid credentials"
    else if rc =? 0 then "Success"
    else "Other error";
  ldap_initialize := fun _ _ => 4096;
  ldap_tls_inplace := fun _ _ => 0;
  ldap_start_tls_s := fun _ _ => demo_rc;
  ldap_sasl_interactive_bind_s := fun _ _ _ _ _ => demo_rc;
  ldap_sasl_bind_s := fun _ _ _ _ => demo_rc;
  ldap_unbind_ext_s := fun _ _ => demo_rc;
  ldap_delete_ext_s := fun _ _ _ => demo_rc;
  ldap_search_ext_s := fun _ _ _ _ _ _ _ _ _ => (demo_rc, demo_res);
  ldap_whoami_s := fun _ _ => (demo_rc, ident)
|}.

Definition demo_runtime : Runtime := {|
  list_new_ok := true;
  list_append_ok := fun _ _ => true;
  malloc_ok := true;
  unicode_error := fun _ => None;
  PyObject2char := fun o =>
    match o with
    | Some (PyUnicode u) => Some u
    | _ => None
    end;
  PyList2StringList := fun _ => None;
  create_sasl_defaults := fun _ _ _ _ _ _ => Some 8192;
  LDAPEntry_FromLDAPMessage := fun m _ => mk_entry (msg_dn m) (msg_attrs m);
  lud_err2string := fun _ => "Bad URL";
  bool_address := fun b => if b then 7340032 else 7340064
|}.

Definition demo_uri : string := "ldap://localhost:389/".

Definition fresh_client : LDAPClient :=
  mk_client (Some (PyUnicode demo_uri)) 0 0 0.

Definition bound_client : LDAPClient :=
  mk_client (Some (PyUnicode demo_uri)) 4096 1 0.

Definition start (c : LDAPClient) : State := mk_state c None [].

Definition no_identity : berval := mk_berval 0 None.

(** A runtime in which every allocation fails. *)
Definition starved_runtime : Runtime := {|
  list_new_ok := false;
  list_append_ok := fun _ _ => false;
  malloc_ok := false;
  unicode_error := fun _ => Some (mk_err PyExc_MemoryError "");
  PyObject2char := fun _ => None;
  PyList2StringList := fun _ => None;
  create_sasl_defaults := fun _ _ _ _ _ _ => None;
  LDAPEntry_FromLDAPMessage := fun m _ => mk_entry (msg_dn m) (msg_attrs m);
  lud_err2string := fun _ => "Bad URL";
  bool_address := fun b => if b then 7340032 else 7340064
|}.

(** A runtime that builds objects but cannot grow a list or allocate a
    [timeval]. *)
Definition tight_runtime : Runtime := {|
  list_new_ok := true;
  list_append_ok := fun _ _ => false;
  malloc_ok := false;
  unicode_error := fun _ => None;
  PyObject2char := fun o =>
    match o with
    | Some (PyUnicode u) => Some u
    | _ => None
    end;
  PyList2StringList := fun _ => None;
  create_sasl_defaults := fun _ _ _ _ _ _ => Some 8192;
  LDAPEntry_FromLDAPMessage := fun m _ => mk_entry (msg_dn m) (msg_attrs m);
  lud_err2string := fun _ => "Bad URL";
  bool_address := fun b => if b then 7340032 else 7340064
|}.

(** A session initialised for StartTLS and not yet connected. *)
Definition starttls_client : LDAPClient :=
  mk_client (Some (PyUnicode demo_uri)) 0 0 1.

Definition simple_bind_args : ConnectArgs :=
  mk_connect_args (Some "cn=admin,dc=example,dc=com") (Some "secret")
    None None None None.

Definition sasl_bind_args : ConnectArgs :=
  mk_connect_args None None (Some "DIGEST-MD5") (Some "u:admin") None
    (Some "admin").

(** A response chain: three entries, the second without readable
    attributes, a continuation reference, and the closing result. *)
Definition three_entries : list LDAPMessage :=
  [mk_msg LDAP_RES_SEARCH_ENTRY "cn=a,dc=example,dc=com" ["cn"; "sn"];
   mk_msg LDAP_RES_SEARCH_ENTRY "cn=b,dc=example,dc=com" [];
   mk_msg LDAP_RES_SEARCH_REFERENCE "ldap://other/dc=example,dc=com" [];
   mk_msg LDAP_RES_SEARCH_ENTRY "cn=c,dc=example,dc=com" ["cn"];
   mk_msg LDAP_RES_SEARCH_RESULT "" []].

(** * Properties *)

#[local] Arguments String.eqb : simpl never.

(** Unfolds the primitive operations of the monad. *)
Ltac run :=
  unfold bind, ret, get_self, modify_self, PyErr_NoMemory, PyErr_SetString,
    PyErr_Set, libldap, PyArg_ParseTupleAndKeywords; cbn.

Section Search.

Context {L : LibLdap} {R : Runtime}.

Lemma has_attributes_size (e : LDAPEntry) :
  (PyList_Size (attributes e) =? 0) = negb (has_attributes e).
Proof. unfold has_attributes. destruct (attributes e); reflexivity. Qed.

(** In collect-all mode the loop appends the surviving entries to the
    list it has, and touches nothing else. *)
Lemma search_messages_collect (res : list LDAPMessage) :
  (forall l x, list_append_ok l x = true) ->
  forall (acc : list PyObject) (st : State),
    search_messages 0 res acc st =
    (Some (PyList (acc ++ map PyLDAPEntry (surviving_entries (self st) res))),
     st).
Proof.
  intros Happ. unfold surviving_entries.
  induction res as [|m res IH]; intros acc st; cbn [search_messages].
  - cbn. now rewrite app_nil_r.
  - cbn [filter map]. unfold is_search_entry at 1.
    destruct (ldap_msgtype m =? LDAP_RES_SEARCH_ENTRY) eqn:Hty.
    + run. rewrite has_attributes_size.
      destruct (has_attributes (LDAPEntry_FromLDAPMessage m (self st))) eqn:Hat;
        cbn.
      * rewrite Happ. cbn. rewrite IH. now rewrite <- app_assoc.
      * apply IH.
    + destruct (ldap_msgtype m =? LDAP_RES_SEARCH_REFERENCE); apply IH.
Qed.

(** Messages that are not search-result entries do not influence the
    loop, whatever the mode. *)
Lemma search_messages_only_entries (firstonly : Z) (res : list LDAPMessage) :
  forall (acc : list PyObject) (st : State),
    search_messages firstonly res acc st =
    search_messages firstonly (filter is_search_entry res) acc st.
Proof.
  induction res as [|m res IH]; intros acc st; [reflexivity|].
  cbn [filter search_messages]. unfold is_search_entry at 1.
  destruct (ldap_msgtype m =? LDAP_RES_SEARCH_ENTRY) eqn:Hty.
  - cbn [search_messages]. rewrite Hty. run.
    destruct (PyList_Size _ =? 0); [apply IH|].
    destruct (firstonly =? 1); [reflexivity|].
    destruct (list_append_ok _ _); cbn; [|reflexivity].
    (* the accumulator differs: use the hypothesis at the longer list *)
    apply IH.
  - destruct (ldap_msgtype m =? LDAP_RES_SEARCH_REFERENCE); apply IH.
Qed.

(** In first-only mode the loop stops at the first surviving entry; when
    there is none it hands back the list object it was given. *)
Lemma search_messages_first (res : list LDAPMessage) :
  forall (acc : list PyObject) (st : State),
    search_messages 1 res acc st =
    (match surviving_entries (self st) res with
     | e :: _ => Some (PyLDAPEntry e)
     | [] => Some (PyList acc)
     end, st).
Proof.
  unfold surviving_entries.
  induction res as [|m res IH]; intros acc st; cbn [search_messages].
  - reflexivity.
  - cbn [filter map]. unfold is_search_entry at 1.
    destruct (ldap_msgtype m =? LDAP_RES_SEARCH_ENTRY) eqn:Hty.
    + run. rewrite has_attributes_size.
      destruct (has_attributes (LDAPEntry_FromLDAPMessage m (self st))) eqn:Hat;
        cbn; [reflexivity | apply IH].
    + destruct (ldap_msgtype m =? LDAP_RES_SEARCH_REFERENCE); apply IH.
Qed.

Lemma search_messages_self (firstonly : Z) (res : list LDAPMessage) :
  forall (acc : list PyObject) (st : State),
    self (snd (search_messages firstonly res acc st)) = self st.
Proof.
  induction res as [|m res IH]; intros acc st; cbn [search_messages];
    [reflexivity|].
  destruct (ldap_msgtype m =? LDAP_RES_SEARCH_ENTRY).
  - run. destruct (PyList_Size _ =? 0); [apply IH|].
    destruct (firstonly =? 1); [reflexivity|].
    destruct (list_append_ok _ _); cbn; [apply IH | reflexivity].
  - destruct (ldap_msgtype m =? LDAP_RES_SEARCH_REFERENCE); apply IH.
Qed.

Lemma filter_entries_without_references (res : list LDAPMessage) :
  filter is_search_entry
    (filter (fun m => negb (is_search_reference m)) res) =
  filter is_search_entry res.
Proof.
  induction res as [|m res IH]; [reflexivity|].
  cbn [filter]. unfold is_search_entry at 2, is_search_reference at 1.
  destruct (ldap_msgtype m =? LDAP_RES_SEARCH_REFERENCE) eqn:Href; cbn.
  - apply Z.eqb_eq in Href. rewrite Href. cbn. exact IH.
  - unfold is_search_entry at 1.
    destruct (ldap_msgtype m =? LDAP_RES_SEARCH_ENTRY); [f_equal|]; exact IH.
Qed.

Lemma search_messages_log (firstonly : Z) (res : list LDAPMessage) :
  forall (acc : list PyObject) (st : State),
    log (snd (search_messages firstonly res acc st)) = log st.
Proof.
  induction res as [|m res IH]; intros acc st; cbn [search_messages];
    [reflexivity|].
  destruct (ldap_msgtype m =? LDAP_RES_SEARCH_ENTRY).
  - run. destruct (PyList_Size _ =? 0); [apply IH|].
    destruct (firstonly =? 1); [reflexivity|].
    destruct (list_append_ok _ _); cbn; [apply IH | reflexivity].
  - destruct (ldap_msgtype m =? LDAP_RES_SEARCH_REFERENCE); apply IH.
Qed.

(** [searching] issues exactly one call, the search request with the
    normalised filter and time limit, once the list object exists. *)
Lemma searching_request (basestr : string) (scope : Z)
    (filterstr : option string) (attrs : option (list string))
    (attrsonly firstonly timeout sizelimit : Z) (st : State) :
  list_new_ok = true ->
  log (snd (searching basestr scope filterstr attrs attrsonly firstonly
              timeout sizelimit st)) =
  log st ++
  [c_search_ext_s (ld (self st)) basestr scope (search_filter filterstr)
     attrs attrsonly (search_timelimit timeout) sizelimit].
Proof.
  intros Hnew. unfold searching, PyList_New0. rewrite Hnew. run.
  destruct (ldap_search_ext_s _ _ _ _ _ _ _ _ _) as [rc res].
  destruct (rc =? LDAP_NO_SUCH_OBJECT); [reflexivity|].
  destruct (rc =? LDAP_SUCCESS); cbn; [|reflexivity].
  now rewrite search_messages_log.
Qed.

Lemma searching_self (basestr : string) (scope : Z)
    (filterstr : option string) (attrs : option (list string))
    (attrsonly firstonly timeout sizelimit : Z) (st : State) :
  self (snd (searching basestr scope filterstr attrs attrsonly firstonly
               timeout sizelimit st)) = self st.
Proof.
  unfold searching, PyList_New0.
  destruct list_new_ok; run; [|reflexivity].
  destruct (ldap_search_ext_s _ _ _ _ _ _ _ _ _) as [rc res].
  destruct (rc =? LDAP_NO_SUCH_OBJECT); [reflexivity|].
  destruct (rc =? LDAP_SUCCESS); cbn; [|reflexivity].
  now rewrite search_messages_self.
Qed.

(** The normalisation of filter and time limit: an empty or absent filter
    is passed as NULL; a [timeval] is passed only for a positive timeout
    and then holds that many seconds; a timeout of 0 or less passes NULL. *)
Lemma search_normalisation :
  search_filter (Some "") = None
  /\ search_filter None = None
  /\ (forall f, f <> "" -> search_filter (Some f) = Some f)
  /\ (forall t tv, search_timelimit t = Some tv ->
                   0 < t /\ tv = mk_timeval t 0)
  /\ (forall t, t <= 0 -> search_timelimit t = None)
  /\ (malloc_ok = true ->
      forall t, 0 < t -> search_timelimit t = Some (mk_timeval t 0)).
Proof.
  unfold search_filter, search_timelimit.
  split; [reflexivity|]. split; [reflexivity|]. split; [|split; [|split]].
  - intros f Hf. destruct f; [congruence | reflexivity].
  - intros t tv. destruct (0 <? t) eqn:Ht; [|discriminate].
    apply Z.ltb_lt in Ht. destruct malloc_ok; [|discriminate].
    intros H. injection H as <-. split; [exact Ht | reflexivity].
  - intros t Ht. apply Z.ltb_ge in Ht. now rewrite Ht.
  - intros Hm t Ht. apply Z.ltb_lt in Ht. now rewrite Ht, Hm.
Qed.

(** The request of [LDAPClient_Search]: limits that are given are passed
    on; limits that are absent are read from the automatic variables. *)
Lemma LDAPClient_Search_request (auto : Automatic) (a : SearchArgs)
    (st : State) :
  connected (self st) <> 0 ->
  list_new_ok = true ->
  log (snd (LDAPClient_Search auto (ParseOk a) st)) =
  log st ++
  [c_search_ext_s (ld (self st)) (sa_base a) (sa_scope a)
     (search_filter (sa_filter a)) (PyList2StringList (sa_attrlist a))
     (match sa_attrsonly a with Some b => bool_address b | None => 0 end)
     (search_timelimit
        (match sa_timeout a with Some t => t | None => auto_timeout auto end))
     (match sa_sizelimit a with
      | Some n => n
      | None => auto_sizelimit auto
      end)].
Proof.
  intros Hc Hnew. unfold LDAPClient_Search. run.
  apply Z.eqb_neq in Hc. rewrite Hc. run.
  now rewrite searching_request.
Qed.

(** C1. In collect-all mode ([firstonly] = 0), when the list object can
    be allocated and grown and libldap reports success with the chain
    [res], [searching] returns the list of the decoded search-result
    entries of [res] that have at least one attribute, in the order of
    [res], and raises nothing.  No entry of the list is without
    attributes, and the chain with its search references removed gives the
    same run of the loop.  The session need not be connected for this:
    the check is made by the callers. *)
Theorem searching_collect_all (basestr : string) (scope : Z)
    (filterstr : option string) (attrs : option (list string))
    (attrsonly timeout sizelimit : Z) (st : State)
    (res : list LDAPMessage) :
  list_new_ok = true ->
  (forall l x, list_append_ok l x = true) ->
  ldap_search_ext_s (log st) (ld (self st)) basestr scope
    (search_filter filterstr) attrs attrsonly (search_timelimit timeout)
    sizelimit = (LDAP_SUCCESS, res) ->
  let out :=
    searching basestr scope filterstr attrs attrsonly 0 timeout sizelimit
      st in
  fst out = Some (PyList (map PyLDAPEntry (surviving_entries (self st) res)))
  /\ pyerr (snd out) = pyerr st
  /\ self (snd out) = self st
  /\ (forall e, In e (surviving_entries (self st) res) -> attributes e <> [])
  /\ (forall st0,
        search_messages 0 res [] st0 =
        search_messages 0
          (filter (fun m => negb (is_search_reference m)) res) [] st0).
Proof.
  intros Hnew Happ Hrc out. subst out.
  unfold searching, PyList_New0. rewrite Hnew. run. rewrite Hrc. cbn.
  rewrite search_messages_collect by exact Happ. cbn.
  repeat split.
  - intros e He. unfold surviving_entries in He.
    apply filter_In in He. destruct He as [_ He].
    unfold has_attributes in He. destruct (attributes e); congruence.
  - intros st0.
    rewrite (search_messages_only_entries 0 res [] st0).
    rewrite (search_messages_only_entries 0
               (filter (fun m => negb (is_search_reference m)) res) [] st0).
    now rewrite filter_entries_without_references.
Qed.

End Search.

Section Operations.

Context {L : LibLdap} {R : Runtime}.

(** When libldap reports "no such object", [searching] returns NULL in
    either mode and leaves the error indicator as it was. *)
Lemma searching_no_such_object (basestr : string) (scope : Z)
    (filterstr : option string) (attrs : option (list string))
    (attrsonly firstonly timeout sizelimit : Z) (st : State)
    (res : list LDAPMessage) :
  list_new_ok = true ->
  ldap_search_ext_s (log st) (ld (self st)) basestr scope
    (search_filter filterstr) attrs attrsonly (search_timelimit timeout)
    sizelimit = (LDAP_NO_SUCH_OBJECT, res) ->
  let out :=
    searching basestr scope filterstr attrs attrsonly firstonly timeout
      sizelimit st in
  fst out = None /\ pyerr (snd out) = pyerr st.
Proof.
  intros Hnew Hrc out. subst out.
  unfold searching, PyList_New0. rewrite Hnew. run. rewrite Hrc. cbn.
  split; reflexivity.
Qed.

(** [LDAPClient_GetEntry] on a connected session: the request is a BASE
    search for the name with no filter, no attribute list and no limits;
    "no such object" gives [None]; on success the first decoded entry with
    an attribute is returned, and when there is none the empty list object
    of [searching] comes back. *)
Lemma getentry_outcomes (dnstr : string) (st : State) (rc : Z)
    (res : list LDAPMessage) :
  connected (self st) <> 0 ->
  list_new_ok = true ->
  ldap_search_ext_s (log st) (ld (self st)) dnstr LDAP_SCOPE_BASE None None
    0 None 0 = (rc, res) ->
  let out := LDAPClient_GetEntry (ParseOk dnstr) st in
  log (snd out) =
    log st ++
    [c_search_ext_s (ld (self st)) dnstr LDAP_SCOPE_BASE None None 0 None 0]
  /\ (rc = LDAP_NO_SUCH_OBJECT ->
      fst out = Some Py_None /\ pyerr (snd out) = pyerr st)
  /\ (rc = LDAP_SUCCESS ->
      pyerr (snd out) = pyerr st /\
      fst out =
        match surviving_entries (self st) res with
        | e :: _ => Some (PyLDAPEntry e)
        | [] => Some (PyList [])
        end).
Proof.
  intros Hc Hnew Hrc out. subst out. unfold LDAPClient_GetEntry. run.
  apply Z.eqb_neq in Hc. rewrite Hc. run.
  unfold searching, PyList_New0. rewrite Hnew. run.
  unfold search_timelimit. cbn. rewrite Hrc.
  split; [|split].
  - destruct (rc =? LDAP_NO_SUCH_OBJECT); [reflexivity|].
    destruct (rc =? LDAP_SUCCESS); cbn; [|reflexivity].
    rewrite search_messages_first. cbn.
    destruct (surviving_entries _ _); reflexivity.
  - intros ->. cbn. split; reflexivity.
  - intros ->. cbn. rewrite search_messages_first.
    destruct (surviving_entries _ _); cbn; split; reflexivity.
Qed.

(** C3 (as the code has it). On a connected session,
    [LDAPClient_DelEntryStringDN] with an absent (NULL) name returns 0 and
    changes nothing: no call reaches libldap.  With a name, the empty
    string included, exactly one delete call is issued for that name; a
    success status gives 0 and any other status gives -1 with [LDAPError]
    raised, carrying the text of the status. *)
Theorem delentry_absent_dn_is_noop (dnstr : option string) (st : State) :
  connected (self st) <> 0 ->
  let out := LDAPClient_DelEntryStringDN dnstr st in
  match dnstr with
  | None => out = (0, st)
  | Some d =>
      let rc := ldap_delete_ext_s (log st) (ld (self st)) d in
      log (snd out) = log st ++ [c_delete_ext_s (ld (self st)) d]
      /\ self (snd out) = self st
      /\ (rc = LDAP_SUCCESS -> fst out = 0 /\ pyerr (snd out) = pyerr st)
      /\ (rc <> LDAP_SUCCESS ->
          fst out = -1 /\
          pyerr (snd out) = Some (mk_err LDAPError (ldap_err2string rc)))
  end.
Proof.
  intros Hc out. subst out. unfold LDAPClient_DelEntryStringDN. run.
  apply Z.eqb_neq in Hc. rewrite Hc.
  destruct dnstr as [d|]; run; [|destruct st; reflexivity].
  destruct (ldap_delete_ext_s (log st) (ld (self st)) d =? LDAP_SUCCESS)
    eqn:Hrc; cbn.
  - apply Z.eqb_eq in Hrc.
    split; [reflexivity|]. split; [reflexivity|].
    split; [intros _; split; reflexivity | intros Hne; contradiction].
  - apply Z.eqb_neq in Hrc.
    split; [reflexivity|]. split; [reflexivity|].
    split; [intros Heq; contradiction | intros _; split; reflexivity].
Qed.

(** C4. On a session whose [connected] flag is 0, delete (the C entry
    point, and the method once its argument is parsed), get_entry,
    get_rootDSE, search and whoami return the error value with
    [LDAPExc_NotConnected] raised, and the list of libldap calls is what it
    was.  [LDAPClient_Close] has nothing to undo on such a session: it
    returns [None] through its no-op branch, without a call. *)
Theorem not_connected_guard (st : State) :
  connected (self st) = 0 ->
  let refused :=
    mk_state (self st)
      (Some (mk_err LDAPExc_NotConnected not_connected_msg)) (log st) in
  (forall dnstr, LDAPClient_DelEntryStringDN dnstr st = (-1, refused))
  /\ (forall dnstr, LDAPClient_DelEntry (ParseOk dnstr) st = (None, refused))
  /\ (forall args, LDAPClient_GetEntry args st = (None, refused))
  /\ LDAPClient_GetRootDSE st = (None, refused)
  /\ (forall auto args, LDAPClient_Search auto args st = (None, refused))
  /\ LDAPClient_Whoami st = (None, refused)
  /\ LDAPClient_Close st = (Some Py_None, st).
Proof.
  intros Hc refused. subst refused.
  unfold LDAPClient_DelEntry, LDAPClient_DelEntryStringDN,
    LDAPClient_GetEntry, LDAPClient_GetRootDSE, LDAPClient_Search,
    LDAPClient_Whoami, LDAPClient_Close.
  run. rewrite Hc. cbn. destruct st as [c e l]; cbn.
  repeat split.
Qed.

End Operations.

Section Connect.

Context {L : LibLdap} {R : Runtime}.

(** A call issued after [l] sits in what was appended to [l]. *)
Lemma issued_after (l suffix hist post : list Call) (c : Call) :
  l ++ suffix = hist ++ c :: post ->
  (List.length l <= List.length hist)%nat ->
  exists pre, hist = l ++ pre /\ suffix = pre ++ c :: post.
Proof.
  revert hist. induction l as [|x l IH]; intros hist Heq Hlen.
  - exists hist. split; [reflexivity | exact Heq].
  - destruct hist as [|y hist]; [cbn in Hlen; lia|].
    cbn in Heq. injection Heq as <- Heq. cbn in Hlen.
    destruct (IH hist Heq ltac:(lia)) as [pre [-> ->]].
    exists pre. split; reflexivity.
Qed.

Lemma snoc_split (pre pre' post : list Call) (b c : Call) :
  pre ++ [b] = pre' ++ c :: post ->
  (pre' = pre /\ c = b /\ post = []) \/
  (exists post', post = post' ++ [b] /\ pre = pre' ++ c :: post').
Proof.
  destruct post as [|x post _] using rev_ind; intros Heq.
  - apply app_inj_tail in Heq. destruct Heq as [-> ->]. now left.
  - right. exists post.
    change (pre' ++ c :: post ++ [x]) with (pre' ++ (c :: post) ++ [x]) in Heq.
    rewrite app_assoc in Heq. apply app_inj_tail in Heq.
    destruct Heq as [-> ->]. split; reflexivity.
Qed.

End Connect.

Ltac enum_calls H :=
  repeat match type of H with
  | [] = _ ++ _ :: _ => destruct (app_cons_not_nil _ _ _ H)
  | _ :: _ = ?pre ++ _ :: _ =>
      destruct pre; cbn in H; injection H as ? H; subst
  end.

Section ConnectClose.

Context {L : LibLdap} {R : Runtime}.

(** The bind step, entered after the calls [pre] of this run, all of
    which succeeded. *)
Lemma Connect_bind_post (a : ConnectArgs) (st st1 : State) (pre : list Call) :
  log st1 = log st ++ pre ->
  (forall hist c post rc,
      pre = hist ++ c :: post ->
      status_of (log st ++ hist) c = Some rc -> rc = LDAP_SUCCESS) ->
  connected (self st1) = connected (self st) ->
  pyerr st1 = pyerr st ->
  connect_post st (Connect_bind a st1).
Proof.
  intros Hlog Hpre Hconn Herr.
  assert (Hquiet : forall hist c post rc,
             log st1 = hist ++ c :: post ->
             (List.length (log st) <= List.length hist)%nat ->
             status_of hist c = Some rc -> rc = LDAP_SUCCESS).
  { intros hist c post rc Heq Hlen Hst. rewrite Hlog in Heq.
    destruct (issued_after _ _ _ _ _ Heq Hlen) as [h [-> Hp]].
    exact (Hpre _ _ _ _ Hp Hst). }
  assert (Hbind : forall (b : Call) (rc : Z),
             status_of (log st1) b = Some rc ->
             connect_post st
               ((if negb (rc =? LDAP_SUCCESS)
                 then PyErr_SetString LDAPError (ldap_err2string rc) ;;
                      ret None
                 else modify_self (with_connected 1) ;; ret (Some Py_None))
                  (mk_state (self st1) (pyerr st1) (log st1 ++ [b])))).
  { intros b rc Hb.
    assert (Hsplit : forall hist c post rc',
               (log st1 ++ [b]) = hist ++ c :: post ->
               (List.length (log st) <= List.length hist)%nat ->
               status_of hist c = Some rc' -> rc' <> LDAP_SUCCESS ->
               rc' = rc).
    { intros hist c post rc' Heq Hlen Hst Hne.
      destruct (snoc_split _ _ _ _ _ Heq) as [[-> [-> _]] | [post' [_ Hin]]].
      - congruence.
      - elim Hne. exact (Hquiet _ _ _ _ Hin Hlen Hst). }
    destruct (rc =? LDAP_SUCCESS) eqn:Hrc; run; unfold connect_post; cbn.
    - apply Z.eqb_eq in Hrc. split; [|split].
      + intros hist c post rc' Heq Hlen Hst Hne. exfalso.
        apply Hne. rewrite (Hsplit _ _ _ _ Heq Hlen Hst Hne). exact Hrc.
      + discriminate.
      + intros _. repeat split. exact Herr.
    - split; [|split].
      + intros hist c post rc' Heq Hlen Hst Hne.
        rewrite (Hsplit _ _ _ _ Heq Hlen Hst Hne). repeat split. exact Hconn.
      + intros _. exact Hconn.
      + congruence. }
  unfold Connect_bind. run.
  destruct (mech a) as [m|].
  - destruct (create_sasl_defaults _ _ _ _ _ _) as [d|]; run.
    + apply Hbind. reflexivity.
    + unfold connect_post; cbn. split; [|split].
      * intros hist c post rc Heq Hlen Hst Hne. elim Hne.
        exact (Hquiet _ _ _ _ Heq Hlen Hst).
      * intros _. exact Hconn.
      * congruence.
  - apply Hbind. reflexivity.
Qed.

(** C6 (as the code has it). For every call of [LDAPClient_Connect]:
    whenever a StartTLS call or a bind call (simple or SASL) issued by
    this run got a status other than success, the method returns the
    error value with [LDAPError] raised, carrying the text of that status,
    and the [connected] flag is what it was before the call; every
    failing run leaves the flag as it was, so an unconnected session stays
    unconnected; and a run that does not fail returns [None] with the
    flag set to 1 and the error indicator untouched. *)
Theorem connect_failure_keeps_flag (args : Parsed ConnectArgs) (st : State) :
  let out := LDAPClient_Connect args st in
  (forall hist c post rc,
      log (snd out) = hist ++ c :: post ->
      (List.length (log st) <= List.length hist)%nat ->
      status_of hist c = Some rc ->
      rc <> LDAP_SUCCESS ->
      fst out = None
      /\ pyerr (snd out) = Some (mk_err LDAPError (ldap_err2string rc))
      /\ connected (self (snd out)) = connected (self st))
  /\ (fst out = None -> connected (self (snd out)) = connected (self st))
  /\ (fst out <> None ->
      fst out = Some Py_None
      /\ connected (self (snd out)) = 1
      /\ pyerr (snd out) = pyerr st).
Proof.
  change (connect_post st (LDAPClient_Connect args st)).
  assert (Hnothing : forall (e : option PyErr),
             connect_post st (None, mk_state (self st) e (log st))).
  { intros e. unfold connect_post; cbn. split; [|split; [reflexivity|congruence]].
    intros hist c post rc Hlog Hlen. exfalso.
    rewrite <- (app_nil_r (log st)) in Hlog.
    destruct (issued_after _ _ _ _ _ Hlog Hlen) as [pre [_ H]]. enum_calls H. }
  unfold LDAPClient_Connect.
  destruct args as [e|a]; run; [apply Hnothing|].
  destruct (PyObject2char (uri (self st))) as [uristr|]; run.
  2:{ destruct st; apply Hnothing. }
  set (h := ldap_initialize (log st) uristr).
  rewrite <- app_assoc. cbn [app].
  destruct (tls (self st) =? 1); run.
  - rewrite <- app_assoc. cbn [app].
    destruct (ldap_tls_inplace _ h =? 0); run.
    + rewrite <- app_assoc. cbn [app].
      destruct (ldap_start_tls_s _ h =? LDAP_SUCCESS) eqn:Hrc; run.
      * eapply Connect_bind_post; [reflexivity| |reflexivity|reflexivity].
        intros hist c post rc H Hst. enum_calls H; cbn in Hst; try discriminate.
        injection Hst as <-. apply Z.eqb_eq. exact Hrc.
      * unfold connect_post; cbn. split; [|split; [reflexivity|congruence]].
        intros hist c post rc Hlog Hlen Hst Hne.
        destruct (issued_after _ _ _ _ _ Hlog Hlen) as [pre [-> H]].
        enum_calls H; cbn in Hst; try discriminate.
        injection Hst as <-. repeat split.
    + eapply Connect_bind_post; [reflexivity| |reflexivity|reflexivity].
      intros hist c post rc H Hst. enum_calls H; cbn in Hst; discriminate.
  - eapply Connect_bind_post; [reflexivity| |reflexivity|reflexivity].
    intros hist c post rc H Hst. enum_calls H; cbn in Hst; discriminate.
Qed.

End ConnectClose.

Section Session.

Context {L : LibLdap} {R : Runtime}.

(** Without a URI argument the session is given the default URI. *)
Lemma init_default_uri (tlso : option bool) (st : State) :
  fst (ldap_url_parse "ldap://localhost:389/") = 0 ->
  unicode_error "ldap://localhost:389/" = None ->
  let out := LDAPClient_init (ParseOk (mk_init_args None tlso)) st in
  fst out = 0
  /\ uri (self (snd out)) = Some (PyUnicode "ldap://localhost:389/").
Proof.
  intros Hp Hu out. subst out. unfold LDAPClient_init. run.
  unfold init_uri. cbn.
  destruct (ldap_url_parse "ldap://localhost:389/") as [rc lud].
  cbn in Hp. subst rc. cbn.
  unfold PyUnicode_FromString. rewrite Hu. run.
  destruct ("ldaps" =? lud_scheme lud)%string; cbn; split; reflexivity.
Qed.

(** C5. When the URI handed to [LDAPClient_init] parses to the scheme
    [ldaps], an initialisation that returns 0 leaves [tls] at 0 whatever
    flag was requested (and [connected] at 0); and the initialisation does
    return 0 as soon as the URL parses and the URI string object can be
    built. *)
Theorem init_ldaps_clears_tls (a : InitArgs) (st : State) :
  lud_scheme (snd (ldap_url_parse (init_uri a))) = "ldaps" ->
  let out := LDAPClient_init (ParseOk a) st in
  (fst out = 0 ->
   tls (self (snd out)) = 0 /\ connected (self (snd out)) = 0)
  /\ (fst (ldap_url_parse (init_uri a)) = 0 ->
      unicode_error (init_uri a) = None ->
      fst out = 0 /\ uri (self (snd out)) = Some (PyUnicode (init_uri a))).
Proof.
  intros Hs out. subst out. unfold LDAPClient_init. run.
  fold (init_uri a).
  destruct (ldap_url_parse (init_uri a)) as [rc lud]. cbn in Hs. cbn [fst].
  destruct (rc =? 0) eqn:Hrc; run.
  - unfold PyUnicode_FromString.
    destruct (unicode_error (init_uri a)) as [e|]; run.
    + split; [intros H; discriminate H | intros _ H; discriminate H].
    + rewrite Hs, String.eqb_refl. cbn. repeat split.
  - split; [intros H; discriminate H|].
    intros ->. discriminate Hrc.
Qed.

(** C8. On a connected session, with [rc] and [authzid] the answer of
    libldap to the "who am I" request: a status other than success gives
    the error value with [LDAPError] raised, carrying the text of the
    status; on success an identity of length 0 gives the string "anonym",
    and an identity of another length gives the identity string itself. *)
Theorem whoami_identity (st : State) (rc : Z) (authzid : berval) :
  connected (self st) <> 0 ->
  ldap_whoami_s (log st) (ld (self st)) = (rc, authzid) ->
  let out := LDAPClient_Whoami st in
  (rc <> LDAP_SUCCESS ->
   fst out = None /\
   pyerr (snd out) = Some (mk_err LDAPError (ldap_err2string rc)))
  /\ (rc = LDAP_SUCCESS -> bv_len authzid = 0 ->
      unicode_error "anonym" = None ->
      fst out = Some (PyUnicode "anonym") /\ pyerr (snd out) = pyerr st)
  /\ (forall v, rc = LDAP_SUCCESS -> bv_len authzid <> 0 ->
      bv_val authzid = Some v -> unicode_error v = None ->
      fst out = Some (PyUnicode v) /\ pyerr (snd out) = pyerr st).
Proof.
  intros Hc Hans out. subst out. unfold LDAPClient_Whoami. run.
  apply Z.eqb_neq in Hc. rewrite Hc. rewrite Hans. cbn.
  split; [|split].
  - intros Hrc. apply Z.eqb_neq in Hrc. rewrite Hrc. cbn. split; reflexivity.
  - intros -> Hlen Hu. rewrite Hlen. cbn.
    unfold PyUnicode_FromString. rewrite Hu. cbn. split; reflexivity.
  - intros v -> Hlen Hv Hu. apply Z.eqb_neq in Hlen. rewrite Hlen. cbn.
    rewrite Hv. unfold PyUnicode_FromString. rewrite Hu. cbn.
    split; reflexivity.
Qed.

Lemma DelEntryStringDN_self (dnstr : option string) (st : State) :
  self (snd (LDAPClient_DelEntryStringDN dnstr st)) = self st.
Proof.
  unfold LDAPClient_DelEntryStringDN. run.
  destruct (connected (self st) =? 0); [reflexivity|].
  destruct dnstr as [d|]; run; [|reflexivity].
  destruct (_ =? LDAP_SUCCESS); reflexivity.
Qed.

(** A computation built from steps that keep the client object keeps it. *)
Lemma bind_self {A B : Type} (m : M A) (k : A -> M B) (st : State) :
  self (snd (m st)) = self st ->
  (forall a st', self (snd (k a st')) = self st') ->
  self (snd (bind m k st)) = self st.
Proof.
  intros Hm Hk. unfold bind. destruct (m st) as [a st']. cbn in Hm.
  rewrite Hk. exact Hm.
Qed.

Lemma DelEntry_self (args : Parsed string) (st : State) :
  self (snd (LDAPClient_DelEntry args st)) = self st.
Proof.
  unfold LDAPClient_DelEntry. destruct args as [e|d]; [reflexivity|].
  cbn [PyArg_ParseTupleAndKeywords]. apply bind_self; [reflexivity|].
  intros [a|] st'; [|reflexivity].
  apply bind_self; [apply DelEntryStringDN_self|].
  intros r st''. destruct (negb (r =? 0)); reflexivity.
Qed.

Lemma GetEntry_self (args : Parsed string) (st : State) :
  self (snd (LDAPClient_GetEntry args st)) = self st.
Proof.
  unfold LDAPClient_GetEntry. apply bind_self; [reflexivity|].
  intros s st'. destruct (connected s =? 0); [reflexivity|].
  apply bind_self; [destruct args; reflexivity|].
  intros [d|] st''; [|reflexivity].
  apply bind_self; [apply searching_self|].
  intros [o|] st3; reflexivity.
Qed.

Lemma GetRootDSE_self (st : State) :
  self (snd (LDAPClient_GetRootDSE st)) = self st.
Proof.
  unfold LDAPClient_GetRootDSE. run.
  destruct (connected (self st) =? 0); [reflexivity|]. apply searching_self.
Qed.

Lemma Search_self (auto : Automatic) (args : Parsed SearchArgs) (st : State) :
  self (snd (LDAPClient_Search auto args st)) = self st.
Proof.
  unfold LDAPClient_Search. run.
  destruct (connected (self st) =? 0); [reflexivity|].
  destruct args as [e|a]; run; [reflexivity|].
  apply searching_self.
Qed.

Lemma Whoami_self (st : State) :
  self (snd (LDAPClient_Whoami st)) = self st.
Proof.
  unfold LDAPClient_Whoami. run.
  destruct (connected (self st) =? 0); [reflexivity|].
  destruct (ldap_whoami_s _ _) as [rc authzid].
  destruct (rc =? LDAP_SUCCESS); cbn; [|reflexivity].
  destruct (bv_val _) as [v|]; [|reflexivity].
  unfold PyUnicode_FromString. destruct (unicode_error v); reflexivity.
Qed.

(** [LDAPClient_Close] changes the flag only by clearing it after a
    successful unbind, and changes no other field. *)
Lemma Close_frame (st : State) :
  let out := LDAPClient_Close st in
  uri (self (snd out)) = uri (self st)
  /\ tls (self (snd out)) = tls (self st)
  /\ ld (self (snd out)) = ld (self st)
  /\ (connected (self (snd out)) <> connected (self st) ->
      connected (self (snd out)) = 0
      /\ fst out = Some Py_None
      /\ ldap_unbind_ext_s (log st) (ld (self st)) = LDAP_SUCCESS
      /\ log (snd out) = log st ++ [c_unbind_ext_s (ld (self st))]).
Proof.
  intros out. subst out. unfold LDAPClient_Close. run.
  destruct (connected (self st) =? 0); cbn.
  - repeat split; congruence.
  - destruct (_ =? LDAP_SUCCESS) eqn:Hrc; cbn.
    + apply Z.eqb_eq in Hrc. repeat split; assumption.
    + repeat split; congruence.
Qed.

(** [LDAPClient_Connect] writes the handle and the flag, never the URI
    or the TLS request. *)
Lemma Connect_bind_frame (a : ConnectArgs) (st : State) :
  uri (self (snd (Connect_bind a st))) = uri (self st)
  /\ tls (self (snd (Connect_bind a st))) = tls (self st).
Proof.
  unfold Connect_bind. run.
  destruct (mech a) as [m|].
  - destruct (create_sasl_defaults _ _ _ _ _ _) as [d|]; run.
    + destruct (_ =? LDAP_SUCCESS); cbn; split; reflexivity.
    + split; reflexivity.
  - destruct (_ =? LDAP_SUCCESS); cbn; split; reflexivity.
Qed.

Lemma Connect_frame (args : Parsed ConnectArgs) (st : State) :
  uri (self (snd (LDAPClient_Connect args st))) = uri (self st)
  /\ tls (self (snd (LDAPClient_Connect args st))) = tls (self st).
Proof.
  unfold LDAPClient_Connect.
  destruct args as [e|a]; run; [split; reflexivity|].
  destruct (PyObject2char (uri (self st))) as [uristr|]; run;
    [|split; reflexivity].
  assert (Hb : forall st1 : State,
             uri (self st1) = uri (self st) ->
             tls (self st1) = tls (self st) ->
             uri (self (snd (Connect_bind a st1))) = uri (self st)
             /\ tls (self (snd (Connect_bind a st1))) = tls (self st)).
  { intros st1 Hu Ht. destruct (Connect_bind_frame a st1) as [Hu' Ht'].
    split; congruence. }
  destruct (tls (self st) =? 1); run.
  - destruct (ldap_tls_inplace _ _ =? 0); run.
    + destruct (ldap_start_tls_s _ _ =? LDAP_SUCCESS); run.
      * apply Hb; reflexivity.
      * split; reflexivity.
    + apply Hb; reflexivity.
  - apply Hb; reflexivity.
Qed.

(** [LDAPClient_Connect] writes the flag only on its successful return. *)
Lemma Connect_bind_flag (a : ConnectArgs) (st : State) :
  let out := Connect_bind a st in
  (fst out = None -> connected (self (snd out)) = connected (self st))
  /\ (fst out <> None ->
      fst out = Some Py_None /\ connected (self (snd out)) = 1).
Proof.
  intros out. subst out. unfold Connect_bind. run.
  destruct (mech a) as [m|].
  - destruct (create_sasl_defaults _ _ _ _ _ _) as [d|]; run.
    + destruct (_ =? LDAP_SUCCESS); cbn; split; congruence || now split.
    + split; congruence.
  - destruct (_ =? LDAP_SUCCESS); cbn; split; congruence || now split.
Qed.

Lemma Connect_flag (args : Parsed ConnectArgs) (st : State) :
  let out := LDAPClient_Connect args st in
  (fst out = None -> connected (self (snd out)) = connected (self st))
  /\ (fst out <> None ->
      fst out = Some Py_None /\ connected (self (snd out)) = 1).
Proof.
  intros out. subst out. unfold LDAPClient_Connect.
  destruct args as [e|a]; run; [split; congruence|].
  destruct (PyObject2char (uri (self st))) as [uristr|]; run;
    [|split; congruence].
  assert (Hb : forall st1 : State,
             connected (self st1) = connected (self st) ->
             (fst (Connect_bind a st1) = None ->
              connected (self (snd (Connect_bind a st1))) =
              connected (self st))
             /\ (fst (Connect_bind a st1) <> None ->
                 fst (Connect_bind a st1) = Some Py_None
                 /\ connected (self (snd (Connect_bind a st1))) = 1)).
  { intros st1 Hc. destruct (Connect_bind_flag a st1) as [Hf Hs].
    split; [intros H; rewrite (Hf H); exact Hc | exact Hs]. }
  destruct (tls (self st) =? 1); run.
  - destruct (ldap_tls_inplace _ _ =? 0); run.
    + destruct (ldap_start_tls_s _ _ =? LDAP_SUCCESS); run.
      * apply Hb; reflexivity.
      * split; congruence.
    + apply Hb; reflexivity.
  - apply Hb; reflexivity.
Qed.

(** C10. For every entry of the method table and every state: the URI
    and the TLS request are never changed; del_entry, get_entry,
    get_rootDSE, search and whoami return the client object exactly as
    they found it, whether they succeed or fail; connect changes the
    [connected] flag only by setting it to 1 on a successful return; and
    close changes it only by clearing it after an unbind that libldap
    reported successful. *)
Theorem session_frame (m : MethodCall) (st : State) :
  let out := invoke m st in
  uri (self (snd out)) = uri (self st)
  /\ tls (self (snd out)) = tls (self st)
  /\ match m with
     | m_connect _ =>
         connected (self (snd out)) <> connected (self st) ->
         connected (self (snd out)) = 1 /\ fst out = Some Py_None
     | m_close =>
         connected (self (snd out)) <> connected (self st) ->
         connected (self (snd out)) = 0
         /\ fst out = Some Py_None
         /\ ldap_unbind_ext_s (log st) (ld (self st)) = LDAP_SUCCESS
     | _ => self (snd out) = self st
     end.
Proof.
  intros out. subst out.
  assert (Hsame : forall out : option PyObject * State,
             self (snd out) = self st ->
             uri (self (snd out)) = uri (self st)
             /\ tls (self (snd out)) = tls (self st)
             /\ self (snd out) = self st).
  { intros out H. rewrite H. repeat split. }
  destruct m as [|args|args|args| |auto args|]; cbn [invoke].
  - destruct (Close_frame st) as [Hu [Ht [_ Hc]]].
    split; [exact Hu|]. split; [exact Ht|].
    intros Hne. destruct (Hc Hne) as [H0 [Hr [Hrc _]]]. now repeat split.
  - destruct (Connect_frame args st) as [Hu Ht].
    split; [exact Hu|]. split; [exact Ht|].
    intros Hne.
    destruct (Connect_flag args st) as [Hfail Hok].
    destruct (fst (LDAPClient_Connect args st)) as [o|] eqn:Hres.
    + destruct Hok as [Hr H1]; [discriminate|]. now split.
    + elim Hne. now apply Hfail.
  - apply Hsame, DelEntry_self.
  - apply Hsame, GetEntry_self.
  - apply Hsame, GetRootDSE_self.
  - apply Hsame, Search_self.
  - apply Hsame, Whoami_self.
Qed.

End Session.

(** * Life cycle of a session *)

Section LifeCycle.

Context {L : LibLdap} {R : Runtime}.

(** A guarded method called on an unconnected session raises
    [LDAPExc_NotConnected] and does nothing else. *)
Lemma invoke_refused (m : MethodCall) (st : State) :
  connected (self st) = 0 ->
  guarded m = true ->
  invoke m st = (None, refused st).
Proof.
  intros Hc Hg. unfold refused.
  destruct m as [|args|[e|d]|args| |auto args|]; try discriminate Hg;
    cbn [invoke];
    unfold LDAPClient_DelEntry, LDAPClient_DelEntryStringDN,
      LDAPClient_GetEntry, LDAPClient_GetRootDSE, LDAPClient_Search,
      LDAPClient_Whoami;
    run; rewrite Hc; reflexivity.
Qed.

(** A close that returns normally leaves the flag at 0. *)
Lemma Close_ok_unconnected (st : State) :
  fst (LDAPClient_Close st) = Some Py_None ->
  connected (self (snd (LDAPClient_Close st))) = 0.
Proof.
  unfold LDAPClient_Close. run.
  destruct (connected (self st) =? 0) eqn:Hc; cbn.
  - intros _. now apply Z.eqb_eq.
  - destruct (_ =? LDAP_SUCCESS); cbn; [reflexivity | discriminate].
Qed.

(** X1. Closing is idempotent: once a close has returned normally, a
    second close returns [None] again, issues no call and changes
    nothing. *)
Theorem close_twice_is_close_once (st : State) :
  fst (LDAPClient_Close st) = Some Py_None ->
  LDAPClient_Close (snd (LDAPClient_Close st)) =
  (Some Py_None, snd (LDAPClient_Close st)).
Proof.
  intros Hok. pose proof (Close_ok_unconnected st Hok) as H0.
  destruct (LDAPClient_Close st) as [r st1]. cbn in *.
  unfold LDAPClient_Close. run. rewrite H0. cbn.
  destruct st1; reflexivity.
Qed.

(** X2. When the unbind of a connected session is refused by libldap,
    close returns the error value with [LDAPError] raised, carrying the
    text of the status; the session object is untouched, so it still
    counts as connected, and exactly the one unbind call was issued. *)
Theorem close_failure_stays_connected (st : State) :
  connected (self st) <> 0 ->
  ldap_unbind_ext_s (log st) (ld (self st)) <> LDAP_SUCCESS ->
  LDAPClient_Close st =
  (None,
   mk_state (self st)
     (Some (mk_err LDAPError
              (ldap_err2string (ldap_unbind_ext_s (log st) (ld (self st))))))
     (log st ++ [c_unbind_ext_s (ld (self st))])).
Proof.
  intros Hc Hrc. unfold LDAPClient_Close. run.
  apply Z.eqb_neq in Hc. rewrite Hc. cbn.
  apply Z.eqb_neq in Hrc. rewrite Hrc. reflexivity.
Qed.

(** X3. After a close that returned normally, every guarded method
    (del_entry, get_entry, get_rootDSE, search, whoami) is refused with
    [LDAPExc_NotConnected] and reaches libldap with nothing. *)
Theorem close_then_refused (m : MethodCall) (st : State) :
  guarded m = true ->
  fst (LDAPClient_Close st) = Some Py_None ->
  invoke m (snd (LDAPClient_Close st)) =
  (None, refused (snd (LDAPClient_Close st))).
Proof.
  intros Hg Hok. apply invoke_refused; [|exact Hg].
  now apply Close_ok_unconnected.
Qed.

(** What [LDAPClient_init] returns and leaves behind, by cases on the
    parsed URL and on the allocation of the URI string. *)
Lemma LDAPClient_init_cases (a : InitArgs) (st : State) :
  let rc := fst (ldap_url_parse (init_uri a)) in
  let lud := snd (ldap_url_parse (init_uri a)) in
  LDAPClient_init (ParseOk a) st =
  if negb (rc =? 0) then
    (-1, mk_state (self st)
           (Some (mk_err LDAPExc_UrlError (lud_err2string rc))) (log st))
  else
    match unicode_error (init_uri a) with
    | Some e =>
        (-1, mk_state (with_uri None (self st))
               (Some (mk_err PyExc_MemoryError "")) (log st))
    | None =>
        (0, mk_state
              (mk_client (Some (PyUnicode (init_uri a))) (ld (self st)) 0
                 (if ("ldaps" =? lud_scheme lud)%string then 0
                  else match init_tlso a with
                       | Some b => PyObject_IsTrue b
                       | None => 0
                       end))
              (pyerr st) (log st))
    end.
Proof.
  intros rc lud. subst rc lud. unfold LDAPClient_init. run.
  destruct (ldap_url_parse (init_uri a)) as [rc lud]. cbn [fst snd].
  destruct (rc =? 0); run; [|reflexivity].
  unfold PyUnicode_FromString.
  destruct (unicode_error (init_uri a)) as [e|]; run; [reflexivity|].
  destruct ("ldaps" =? lud_scheme lud)%string; reflexivity.
Qed.

(** X4. A URI that [ldap_url_parse] rejects makes the initialisation
    fail with [LDAPExc_UrlError], carrying the text for the parser's code;
    the session object and the list of libldap calls are as before. *)
Theorem init_rejects_bad_url (a : InitArgs) (st : State) :
  fst (ldap_url_parse (init_uri a)) <> 0 ->
  LDAPClient_init (ParseOk a) st =
  (-1,
   mk_state (self st)
     (Some (mk_err LDAPExc_UrlError
              (lud_err2string (fst (ldap_url_parse (init_uri a))))))
     (log st)).
Proof.
  intros Hrc. rewrite LDAPClient_init_cases.
  apply Z.eqb_neq in Hrc. now rewrite Hrc.
Qed.

(** X5. An initialisation that returns 0 has stored the URI it was given
    (the default one when none was given), cleared the [connected] flag,
    kept the handle, and set [tls] to the requested flag (0 when none was
    requested) unless the scheme is [ldaps]; it has raised nothing and
    called libldap for no connection. *)
Theorem init_success_state (a : InitArgs) (st : State) :
  let out := LDAPClient_init (ParseOk a) st in
  fst out = 0 ->
  uri (self (snd out)) = Some (PyUnicode (init_uri a))
  /\ connected (self (snd out)) = 0
  /\ ld (self (snd out)) = ld (self st)
  /\ (lud_scheme (snd (ldap_url_parse (init_uri a))) <> "ldaps" ->
      tls (self (snd out)) =
      match init_tlso a with
      | Some true => 1
      | _ => 0
      end)
  /\ pyerr (snd out) = pyerr st
  /\ log (snd out) = log st.
Proof.
  intros out. subst out. rewrite LDAPClient_init_cases.
  destruct (negb (fst (ldap_url_parse (init_uri a)) =? 0));
    [intros H; discriminate H|].
  destruct (unicode_error (init_uri a)); [intros H; discriminate H|].
  intros _. cbn. repeat split.
  intros Hs. apply String.eqb_neq in Hs. rewrite String.eqb_sym in Hs.
  rewrite Hs. destruct (init_tlso a) as [[|]|]; reflexivity.
Qed.

(** [LDAPClient_init] never sets the [connected] flag and never calls
    libldap for the connection. *)
Lemma LDAPClient_init_unconnected (args : Parsed InitArgs) (st : State) :
  connected (self st) = 0 ->
  connected (self (snd (LDAPClient_init args st))) = 0
  /\ log (snd (LDAPClient_init args st)) = log st.
Proof.
  intros Hc. destruct args as [e|a]; [split; [exact Hc | reflexivity]|].
  rewrite LDAPClient_init_cases.
  destruct (negb (fst (ldap_url_parse (init_uri a)) =? 0));
    [split; [exact Hc | reflexivity]|].
  destruct (unicode_error (init_uri a));
    split; try reflexivity; exact Hc.
Qed.

(** X6. A session that was created and then initialised, with whatever
    arguments and whether or not the initialisation succeeded, is not
    connected and has reached libldap with nothing; every guarded method
    called on it is refused with [LDAPExc_NotConnected]. *)
Theorem new_then_init_is_unconnected (args : Parsed InitArgs)
    (m : MethodCall) (st : State) :
  fst (LDAPClient_new st) <> None ->
  guarded m = true ->
  let st2 := snd (LDAPClient_init args (snd (LDAPClient_new st))) in
  connected (self st2) = 0
  /\ log st2 = log st
  /\ invoke m st2 = (None, refused st2).
Proof.
  intros Hnew Hg st2. subst st2.
  assert (H1 : connected (self (snd (LDAPClient_new st))) = 0
               /\ log (snd (LDAPClient_new st)) = log st).
  { revert Hnew. unfold LDAPClient_new, PyUnicode_FromString.
    destruct (unicode_error ""); run; [congruence | now split]. }
  destruct H1 as [Hc Hl].
  destruct (LDAPClient_init_unconnected args _ Hc) as [Hc2 Hl2].
  split; [exact Hc2|]. split; [congruence|].
  now apply invoke_refused.
Qed.

End LifeCycle.

(** * The calls of a connect *)

Section ConnectCalls.

Context {L : LibLdap} {R : Runtime}.

(** The bind step keeps the handle and adds at most one call, the bind
    for the arguments; it returns [None] exactly when that bind got the
    success status. *)
Lemma Connect_bind_run (a : ConnectArgs) (st1 : State) :
  let out := Connect_bind a st1 in
  ld (self (snd out)) = ld (self st1)
  /\ ((log (snd out) = log st1 /\ fst out = None)
      \/ exists b,
           log (snd out) = log st1 ++ [b]
           /\ bind_call_for a (ld (self st1)) b
           /\ (fst out = Some Py_None <->
               status_of (log st1) b = Some LDAP_SUCCESS)).
Proof.
  intros out. subst out. unfold Connect_bind, bind_call_for. run.
  destruct (mech a) as [m|].
  - destruct (create_sasl_defaults _ _ _ _ _ _) as [d|] eqn:Hd; run.
    + split; [destruct (_ =? LDAP_SUCCESS); reflexivity|].
      right. eexists. split; [|split; [exists d; split; reflexivity|]].
      * destruct (_ =? LDAP_SUCCESS); reflexivity.
      * cbn [status_of].
        destruct (ldap_sasl_interactive_bind_s _ _ _ _ _ =? LDAP_SUCCESS)
          eqn:Hrc; cbn.
        -- apply Z.eqb_eq in Hrc. rewrite Hrc. tauto.
        -- apply Z.eqb_neq in Hrc. split; [discriminate | congruence].
    + split; [reflexivity|]. left. split; reflexivity.
  - split; [destruct (_ =? LDAP_SUCCESS); reflexivity|].
    right. eexists. split; [|split; [reflexivity|]].
    + destruct (_ =? LDAP_SUCCESS); reflexivity.
    + cbn [status_of].
      destruct (ldap_sasl_bind_s _ _ _ _ =? LDAP_SUCCESS) eqn:Hrc; cbn.
      * apply Z.eqb_eq in Hrc. rewrite Hrc. tauto.
      * apply Z.eqb_neq in Hrc. split; [discriminate | congruence].
Qed.

(** A connect that cannot parse its arguments or cannot read the URI
    of the session does nothing but fail. *)
Lemma Connect_quiet (args : Parsed ConnectArgs) (st : State) :
  match args with
  | ParseError _ => True
  | ParseOk _ => PyObject2char (uri (self st)) = None
  end ->
  fst (LDAPClient_Connect args st) = None
  /\ self (snd (LDAPClient_Connect args st)) = self st
  /\ log (snd (LDAPClient_Connect args st)) = log st.
Proof.
  unfold LDAPClient_Connect. destruct args as [e|a]; run.
  - intros _. repeat split.
  - intros ->. repeat split.
Qed.

(** The calls of a connect that could read the URI: the two calls of the
    prologue, the TLS step, and at most one bind. *)
Lemma Connect_run (a : ConnectArgs) (st : State) (uristr : string) :
  PyObject2char (uri (self st)) = Some uristr ->
  let out := LDAPClient_Connect (ParseOk a) st in
  let h := ldap_initialize (log st) uristr in
  let pro :=
    [c_initialize uristr;
     c_set_option h LDAP_OPT_PROTOCOL_VERSION LDAP_VERSION3] in
  exists T ok B,
    tls_phase st h pro T ok
    /\ log (snd out) = log st ++ pro ++ T ++ B
    /\ ld (self (snd out)) = h
    /\ (ok = false -> B = [] /\ fst out = None)
    /\ (B = [] -> fst out = None)
    /\ (B = [] \/
        exists b,
          B = [b] /\ bind_call_for a h b
          /\ (fst out = Some Py_None <->
              status_of (log st ++ pro ++ T) b = Some LDAP_SUCCESS)).
Proof.
  intros Huri out h pro. subst out.
  assert (Hb : forall (st1 : State) (T : list Call),
             log st1 = log st ++ pro ++ T -> ld (self st1) = h ->
             tls_phase st h pro T true ->
             exists T ok B,
               tls_phase st h pro T ok
               /\ log (snd (Connect_bind a st1)) = log st ++ pro ++ T ++ B
               /\ ld (self (snd (Connect_bind a st1))) = h
               /\ (ok = false -> B = [] /\ fst (Connect_bind a st1) = None)
               /\ (B = [] -> fst (Connect_bind a st1) = None)
               /\ (B = [] \/
                   exists b,
                     B = [b] /\ bind_call_for a h b
                     /\ (fst (Connect_bind a st1) = Some Py_None <->
                         status_of (log st ++ pro ++ T) b =
                         Some LDAP_SUCCESS))).
  { intros st1 T Hlog Hld Hph.
    destruct (Connect_bind_run a st1) as [Hh [[Hl Hr] | [b [Hl [Hfor Hiff]]]]].
    - exists T, true, []. rewrite app_nil_r.
      repeat split; try congruence. now left.
    - exists T, true, [b].
      split; [exact Hph|].
      split; [rewrite Hl, Hlog; now rewrite <- ?app_assoc|].
      split; [congruence|]. split; [discriminate|]. split; [discriminate|].
      right. exists b. split; [reflexivity|].
      rewrite <- Hld, <- Hlog. split; assumption. }
  unfold LDAPClient_Connect. run. rewrite Huri. run.
  fold h. rewrite <- app_assoc. cbn [app]. fold pro.
  destruct (tls (self st) =? 1) eqn:Htls; run.
  - apply Z.eqb_eq in Htls.
    destruct (ldap_tls_inplace (log st ++ pro) h =? 0) eqn:Hin; run.
    + apply Z.eqb_eq in Hin. rewrite <- !app_assoc.
      destruct (ldap_start_tls_s (log st ++ pro ++ [c_tls_inplace h]) h
                =? LDAP_SUCCESS) eqn:Hrc; run.
      * apply Z.eqb_eq in Hrc.
        apply (Hb (mk_state _ _ _) [c_tls_inplace h; c_start_tls_s h]);
          [reflexivity | reflexivity|].
        now apply tls_started.
      * apply Z.eqb_neq in Hrc.
        exists [c_tls_inplace h; c_start_tls_s h], false, [].
        split; [now apply tls_failed|].
        cbn. repeat split. now left.
    + apply Z.eqb_neq in Hin.
      apply (Hb (mk_state _ _ _) [c_tls_inplace h]);
        [cbn; now rewrite <- app_assoc | reflexivity|].
      now apply tls_in_place.
  - apply Z.eqb_neq in Htls.
    apply (Hb (mk_state _ _ _) []);
      [reflexivity | reflexivity|].
    now apply tls_not_requested.
Qed.

Lemma bind_call_for_kind (a : ConnectArgs) (h : LDAP) (b : Call) :
  bind_call_for a h b ->
  is_bind_call b = true /\ call_handle b = Some h.
Proof.
  unfold bind_call_for. destruct (mech a) as [m|].
  - intros [d [_ ->]]. split; reflexivity.
  - intros ->. split; reflexivity.
Qed.

(** Takes a connect that could read the URI apart: [H] says where the
    call [c] sits among the calls of the run. *)
Ltac connect_cases a Huri Hsplit Hlen :=
  let T := fresh "T" in
  let ok := fresh "ok" in
  let B := fresh "B" in
  let Hph := fresh "Hph" in
  let Hlog := fresh "Hlog" in
  let Hld := fresh "Hld" in
  let Hfail := fresh "Hfail" in
  let Hempty := fresh "Hempty" in
  let HB := fresh "HB" in
  let pre := fresh "pre" in
  let b := fresh "b" in
  let Hfor := fresh "Hfor" in
  let Hiff := fresh "Hiff" in
  let H := fresh "H" in
  destruct (Connect_run a _ _ Huri)
    as (T & ok & B & Hph & Hlog & Hld & Hfail & Hempty & HB);
  rewrite Hlog in Hsplit;
  destruct (issued_after _ _ _ _ _ Hsplit Hlen) as [pre [-> H]];
  destruct Hph;
  destruct HB as [-> | [b [-> [Hfor Hiff]]]];
  cbn in H; enum_calls H.

(** X7. A connect returns normally only after a bind: the last call of
    the run is then a bind call, made on the handle the session now holds,
    and libldap gave it the success status. *)
Theorem connect_success_is_a_successful_bind (args : Parsed ConnectArgs)
    (st : State) :
  let out := LDAPClient_Connect args st in
  fst out = Some Py_None ->
  exists hist b,
    log (snd out) = hist ++ [b]
    /\ (List.length (log st) <= List.length hist)%nat
    /\ is_bind_call b = true
    /\ call_handle b = Some (ld (self (snd out)))
    /\ status_of hist b = Some LDAP_SUCCESS.
Proof.
  intros out Hok. subst out.
  destruct args as [e|a].
  { destruct (Connect_quiet (ParseError e) st I) as [Hn _]. congruence. }
  destruct (PyObject2char (uri (self st))) as [uristr|] eqn:Huri.
  2:{ destruct (Connect_quiet (ParseOk a) st Huri) as [Hn _]. congruence. }
  destruct (Connect_run a st uristr Huri)
    as (T & ok & B & Hph & Hlog & Hld & Hfail & Hempty & HB).
  destruct HB as [-> | [b [-> [Hfor Hiff]]]].
  { rewrite (Hempty eq_refl) in Hok. discriminate Hok. }
  destruct (bind_call_for_kind _ _ _ Hfor) as [Hk Hh].
  eexists. exists b. split; [rewrite Hlog; now rewrite !app_assoc|].
  split; [rewrite <- !app_assoc, length_app; lia|].
  split; [exact Hk|]. split; [now rewrite Hld|].
  rewrite <- !app_assoc. now apply Hiff.
Qed.

(** X8. Whatever the outcome, a bind call issued by a connect is the
    last call of the run, so a connect binds at most once and sends
    nothing after the bind; and the connect returns normally exactly when
    that bind got the success status. *)
Theorem connect_bind_is_last_call (args : Parsed ConnectArgs) (st : State)
    (hist post : list Call) (c : Call) :
  let out := LDAPClient_Connect args st in
  log (snd out) = hist ++ c :: post ->
  (List.length (log st) <= List.length hist)%nat ->
  is_bind_call c = true ->
  post = []
  /\ (fst out = Some Py_None <-> status_of hist c = Some LDAP_SUCCESS).
Proof.
  intros out Hsplit Hlen Hc. subst out.
  assert (Hquiet : log (snd (LDAPClient_Connect args st)) = log st -> False).
  { intros Hq. rewrite Hq in Hsplit.
    rewrite <- (app_nil_r (log st)) in Hsplit.
    destruct (issued_after _ _ _ _ _ Hsplit Hlen) as [pre [_ H]].
    enum_calls H. }
  destruct args as [e|a].
  { destruct (Connect_quiet (ParseError e) st I) as [_ [_ Hq]]. tauto. }
  destruct (PyObject2char (uri (self st))) as [uristr|] eqn:Huri.
  2:{ destruct (Connect_quiet (ParseOk a) st Huri) as [_ [_ Hq]]. tauto. }
  clear Hquiet.
  connect_cases a Huri Hsplit Hlen; try discriminate Hc;
    (split; [reflexivity|]);
    match goal with
    | Hi : _ <-> _ |- _ => cbn in Hi |- *; rewrite <- ?app_assoc in *; exact Hi
    end.
Qed.

(** X9. On a session that asks for StartTLS ([tls] = 1), a bind call is
    issued only right after libldap said that TLS is already in place on
    the connection, or right after a StartTLS call on it that got the
    success status: credentials are not sent before the upgrade. *)
Theorem connect_binds_after_starttls (args : Parsed ConnectArgs) (st : State)
    (hist post : list Call) (c : Call) :
  tls (self st) = 1 ->
  log (snd (LDAPClient_Connect args st)) = hist ++ c :: post ->
  (List.length (log st) <= List.length hist)%nat ->
  is_bind_call c = true ->
  exists hist0 h,
    call_handle c = Some h
    /\ ((hist = hist0 ++ [c_tls_inplace h]
         /\ ldap_tls_inplace hist0 h <> 0)
        \/ (hist = hist0 ++ [c_tls_inplace h; c_start_tls_s h]
            /\ ldap_tls_inplace hist0 h = 0
            /\ ldap_start_tls_s (hist0 ++ [c_tls_inplace h]) h =
               LDAP_SUCCESS)).
Proof.
  intros Htls Hsplit Hlen Hc.
  assert (Hquiet : log (snd (LDAPClient_Connect args st)) = log st -> False).
  { intros Hq. rewrite Hq in Hsplit.
    rewrite <- (app_nil_r (log st)) in Hsplit.
    destruct (issued_after _ _ _ _ _ Hsplit Hlen) as [pre [_ H]].
    enum_calls H. }
  destruct args as [e|a].
  { destruct (Connect_quiet (ParseError e) st I) as [_ [_ Hq]]. tauto. }
  destruct (PyObject2char (uri (self st))) as [uristr|] eqn:Huri.
  2:{ destruct (Connect_quiet (ParseOk a) st Huri) as [_ [_ Hq]]. tauto. }
  clear Hquiet.
  connect_cases a Huri Hsplit Hlen; try discriminate Hc; try contradiction;
    try match goal with
        | Hf : false = false -> _ |- _ =>
            destruct (Hf eq_refl) as [Hnil _]; discriminate Hnil
        end;
    match goal with
    | Hf : bind_call_for _ ?h _ |- _ =>
        destruct (bind_call_for_kind _ _ _ Hf) as [_ Hh];
        exists (log st ++
                [c_initialize uristr;
                 c_set_option h LDAP_OPT_PROTOCOL_VERSION LDAP_VERSION3]), h;
        (split; [exact Hh|])
    end.
  - left. split; [now rewrite <- app_assoc | assumption].
  - right. split; [now rewrite <- app_assoc|]. split; [assumption|].
    rewrite <- app_assoc. assumption.
Qed.

(** A session that did not ask for StartTLS is connected without a
    question about TLS and without a StartTLS call. *)
Lemma Connect_no_tls_calls (args : Parsed ConnectArgs) (st : State)
    (hist post : list Call) (c : Call) :
  tls (self st) <> 1 ->
  log (snd (LDAPClient_Connect args st)) = hist ++ c :: post ->
  (List.length (log st) <= List.length hist)%nat ->
  is_tls_call c = false.
Proof.
  intros Htls Hsplit Hlen.
  assert (Hquiet : log (snd (LDAPClient_Connect args st)) = log st -> False).
  { intros Hq. rewrite Hq in Hsplit.
    rewrite <- (app_nil_r (log st)) in Hsplit.
    destruct (issued_after _ _ _ _ _ Hsplit Hlen) as [pre [_ H]].
    enum_calls H. }
  destruct args as [e|a].
  { destruct (Connect_quiet (ParseError e) st I) as [_ [_ Hq]]. tauto. }
  destruct (PyObject2char (uri (self st))) as [uristr|] eqn:Huri.
  2:{ destruct (Connect_quiet (ParseOk a) st Huri) as [_ [_ Hq]]. tauto. }
  clear Hquiet.
  connect_cases a Huri Hsplit Hlen; try contradiction; try reflexivity;
    match goal with
    | Hf : bind_call_for _ _ ?b |- is_tls_call ?b = false =>
        destruct (bind_call_for_kind _ _ _ Hf) as [Hk _];
        destruct b; try discriminate Hk; reflexivity
    end.
Qed.

(** X10. A session initialised from a URI of scheme [ldaps], whatever TLS
    flag was requested, is connected without any StartTLS step: its
    connect neither asks libldap whether TLS is in place nor issues a
    StartTLS call. *)
Theorem ldaps_session_skips_starttls (ia : InitArgs)
    (args : Parsed ConnectArgs) (st : State) (hist post : list Call)
    (c : Call) :
  lud_scheme (snd (ldap_url_parse (init_uri ia))) = "ldaps" ->
  fst (LDAPClient_init (ParseOk ia) st) = 0 ->
  let st1 := snd (LDAPClient_init (ParseOk ia) st) in
  log (snd (LDAPClient_Connect args st1)) = hist ++ c :: post ->
  (List.length (log st1) <= List.length hist)%nat ->
  is_tls_call c = false.
Proof.
  intros Hs Hok st1. subst st1.
  apply Connect_no_tls_calls.
  revert Hok. rewrite LDAPClient_init_cases.
  destruct (negb (fst (ldap_url_parse (init_uri ia)) =? 0));
    [intros H; discriminate H|].
  destruct (unicode_error (init_uri ia)); [intros H; discriminate H|].
  intros _. cbn. rewrite Hs, String.eqb_refl. discriminate.
Qed.

(** X11. A connect that can read the URI of the session opens with
    [ldap_initialize] on that URI and sets protocol version 3 on the
    handle it got; the session then holds that handle, whether the connect
    succeeds or not, and every further call of the run is made on it. *)
Theorem connect_uses_the_new_handle (a : ConnectArgs) (st : State)
    (uristr : string) :
  PyObject2char (uri (self st)) = Some uristr ->
  let out := LDAPClient_Connect (ParseOk a) st in
  let h := ldap_initialize (log st) uristr in
  ld (self (snd out)) = h
  /\ exists rest,
       log (snd out) =
       log st ++
       c_initialize uristr ::
       c_set_option h LDAP_OPT_PROTOCOL_VERSION LDAP_VERSION3 :: rest
       /\ Forall (fun c => call_handle c = Some h) rest.
Proof.
  intros Huri out h. subst out.
  destruct (Connect_run a st uristr Huri)
    as (T & ok & B & Hph & Hlog & Hld & _ & _ & HB).
  split; [exact Hld|].
  exists (T ++ B). split; [exact Hlog|].
  apply Forall_app. split.
  - destruct Hph; repeat constructor.
  - destruct HB as [-> | [b [-> [Hfor _]]]]; [constructor|].
    destruct (bind_call_for_kind _ _ _ Hfor) as [_ Hh].
    repeat constructor. exact Hh.
Qed.

(** X12. After a connect that returned normally the session counts as
    connected and whoami is not refused: it sends the "who am I" request
    on the handle that connect stored. *)
Theorem connect_then_whoami (args : Parsed ConnectArgs) (st : State) :
  fst (LDAPClient_Connect args st) = Some Py_None ->
  let st1 := snd (LDAPClient_Connect args st) in
  connected (self st1) = 1
  /\ log (snd (LDAPClient_Whoami st1)) =
     log st1 ++ [c_whoami_s (ld (self st1))].
Proof.
  intros Hok st1. subst st1.
  destruct (Connect_flag args st) as [_ Hset].
  destruct Hset as [_ H1]; [congruence|].
  split; [exact H1|].
  unfold LDAPClient_Whoami. run. rewrite H1. cbn.
  destruct (ldap_whoami_s _ _) as [rc authzid].
  destruct (rc =? LDAP_SUCCESS); cbn; [|reflexivity].
  destruct (bv_val _) as [v|]; [|reflexivity].
  unfold PyUnicode_FromString. destruct (unicode_error v); reflexivity.
Qed.

(** X13. The mechanism argument selects the bind: with a mechanism every
    bind call of the run is a SASL interactive bind for that mechanism,
    with the defaults built from realm, authentication name, password (the
    empty string when absent) and authorisation name; without one it is a
    simple bind whose credential is the password with its length, or a
    NULL credential of length 0 when no password was given.  The bind
    name is passed as given in both cases. *)
Theorem connect_mechanism_selects_bind (a : ConnectArgs) (st : State)
    (hist post : list Call) (c : Call) :
  let out := LDAPClient_Connect (ParseOk a) st in
  log (snd out) = hist ++ c :: post ->
  (List.length (log st) <= List.length hist)%nat ->
  is_bind_call c = true ->
  let h := ld (self (snd out)) in
  match mech a with
  | Some m =>
      exists d,
        c = c_sasl_interactive_bind_s h (binddn a) m d
        /\ create_sasl_defaults h m (realm a) (authcid a)
             (match pswstr a with None => "" | Some p => p end) (authzid a)
           = Some d
  | None =>
      c = c_sasl_bind_s h (binddn a)
            (match pswstr a with
             | None => mk_berval 0 None
             | Some p => mk_berval (strlen p) (Some p)
             end)
  end.
Proof.
  intros out Hsplit Hlen Hc h. subst out h.
  destruct (PyObject2char (uri (self st))) as [uristr|] eqn:Huri.
  2:{ destruct (Connect_quiet (ParseOk a) st Huri) as [_ [_ Hq]].
      rewrite Hq in Hsplit. rewrite <- (app_nil_r (log st)) in Hsplit.
      destruct (issued_after _ _ _ _ _ Hsplit Hlen) as [pre [_ H]].
      enum_calls H. }
  pose proof (Connect_run a st uristr Huri) as Hrun. cbn zeta in Hrun.
  destruct Hrun as (T0 & ok0 & B0 & _ & _ & Hld0 & _). rewrite Hld0.
  connect_cases a Huri Hsplit Hlen; try discriminate Hc;
    match goal with
    | Hf : bind_call_for _ _ _ |- _ =>
        unfold bind_call_for in Hf; destruct (mech a) as [m|];
        [destruct Hf as [d [Hd ->]]; exists d; split; [reflexivity | exact Hd]
        | rewrite Hf; destruct (pswstr a); reflexivity]
    end.
Qed.

End ConnectCalls.

(** * More on the search routine *)

Section SearchEdges.

Context {L : LibLdap} {R : Runtime}.

(** In collect-all mode the loop either appends every surviving entry
    or stops at a failed append with MemoryError. *)
Lemma search_messages_all_or_nothing (res : list LDAPMessage) :
  forall (acc : list PyObject) (st : State),
    search_messages 0 res acc st =
    (Some (PyList (acc ++ map PyLDAPEntry (surviving_entries (self st) res))),
     st)
    \/ search_messages 0 res acc st = (None, out_of_memory st).
Proof.
  unfold surviving_entries.
  induction res as [|m res IH]; intros acc st; cbn [search_messages].
  - left. cbn. now rewrite app_nil_r.
  - cbn [filter map]. unfold is_search_entry at 1 3.
    destruct (ldap_msgtype m =? LDAP_RES_SEARCH_ENTRY) eqn:Hty.
    + run. rewrite has_attributes_size.
      destruct (has_attributes (LDAPEntry_FromLDAPMessage m (self st)))
        eqn:Hat; cbn.
      * destruct (list_append_ok acc _); cbn; [|now right].
        destruct (IH (acc ++ [PyLDAPEntry (LDAPEntry_FromLDAPMessage m (self st))]) st)
          as [H | H]; rewrite H; [left | now right].
        now rewrite <- app_assoc.
      * apply IH.
    + destruct (ldap_msgtype m =? LDAP_RES_SEARCH_REFERENCE); apply IH.
Qed.

(** X14. A collect-all search that libldap answered with success never
    returns part of the result: whatever appends fail, [searching] returns
    either the list of all surviving entries, with the error indicator as
    it was, or the error value with MemoryError raised. *)
Theorem collect_all_is_all_or_nothing (basestr : string) (scope : Z)
    (filterstr : option string) (attrs : option (list string))
    (attrsonly timeout sizelimit : Z) (st : State)
    (res : list LDAPMessage) :
  list_new_ok = true ->
  ldap_search_ext_s (log st) (ld (self st)) basestr scope
    (search_filter filterstr) attrs attrsonly (search_timelimit timeout)
    sizelimit = (LDAP_SUCCESS, res) ->
  let out :=
    searching basestr scope filterstr attrs attrsonly 0 timeout sizelimit
      st in
  (fst out = Some (PyList (map PyLDAPEntry (surviving_entries (self st) res)))
   /\ pyerr (snd out) = pyerr st)
  \/ (fst out = None
      /\ pyerr (snd out) = Some (mk_err PyExc_MemoryError "")).
Proof.
  intros Hnew Hrc out. subst out.
  unfold searching, PyList_New0. rewrite Hnew. run. rewrite Hrc. cbn.
  match goal with
  | |- context [search_messages 0 res [] ?s] =>
      destruct (search_messages_all_or_nothing res [] s) as [H | H];
      rewrite H; [left | right]; split; reflexivity
  end.
Qed.

(** X15. A search status other than success and "no such object" makes
    [searching] return the error value with [LDAPError] raised, carrying
    the text of the status, in either mode; the response chain is not
    looked at, and the request is the only call. *)
Theorem search_error_status (basestr : string) (scope : Z)
    (filterstr : option string) (attrs : option (list string))
    (attrsonly firstonly timeout sizelimit : Z) (st : State) (rc : Z)
    (res : list LDAPMessage) :
  list_new_ok = true ->
  ldap_search_ext_s (log st) (ld (self st)) basestr scope
    (search_filter filterstr) attrs attrsonly (search_timelimit timeout)
    sizelimit = (rc, res) ->
  rc <> LDAP_SUCCESS ->
  rc <> LDAP_NO_SUCH_OBJECT ->
  searching basestr scope filterstr attrs attrsonly firstonly timeout
    sizelimit st =
  (None,
   mk_state (self st) (Some (mk_err LDAPError (ldap_err2string rc)))
     (log st ++
      [c_search_ext_s (ld (self st)) basestr scope (search_filter filterstr)
         attrs attrsonly (search_timelimit timeout) sizelimit])).
Proof.
  intros Hnew Hans Hrc Hnso.
  unfold searching, PyList_New0. rewrite Hnew. run. rewrite Hans. cbn.
  apply Z.eqb_neq in Hrc, Hnso. rewrite Hrc, Hnso. reflexivity.
Qed.

(** X16. When the result list cannot be allocated no request is sent: on
    a connected session search and get_rootDSE return the error value with
    MemoryError raised, and get_entry returns [None] with MemoryError left
    in the error indicator; the list of libldap calls is what it was. *)
Theorem search_without_memory_sends_nothing (auto : Automatic)
    (a : SearchArgs) (dnstr : string) (st : State) :
  list_new_ok = false ->
  connected (self st) <> 0 ->
  LDAPClient_Search auto (ParseOk a) st = (None, out_of_memory st)
  /\ LDAPClient_GetRootDSE st = (None, out_of_memory st)
  /\ LDAPClient_GetEntry (ParseOk dnstr) st =
     (Some Py_None, out_of_memory st).
Proof.
  intros Hnew Hc. apply Z.eqb_neq in Hc.
  unfold LDAPClient_Search, LDAPClient_GetRootDSE, LDAPClient_GetEntry,
    searching, PyList_New0, out_of_memory.
  run. rewrite Hc, Hnew. cbn. repeat split.
Qed.

(** X17. When the [timeval] cannot be allocated a requested time limit is
    dropped without a word: the search is sent all the same, with a NULL
    time limit. *)
Theorem search_timeout_dropped_without_memory (basestr : string) (scope : Z)
    (filterstr : option string) (attrs : option (list string))
    (attrsonly firstonly timeout sizelimit : Z) (st : State) :
  list_new_ok = true ->
  malloc_ok = false ->
  log (snd (searching basestr scope filterstr attrs attrsonly firstonly
              timeout sizelimit st)) =
  log st ++
  [c_search_ext_s (ld (self st)) basestr scope (search_filter filterstr)
     attrs attrsonly None sizelimit].
Proof.
  intros Hnew Hm. rewrite searching_request by exact Hnew.
  unfold search_timelimit. rewrite Hm. now destruct (0 <? timeout).
Qed.


Lemma surviving_entries_app (s : LDAPClient) (l1 l2 : list LDAPMessage) :
  surviving_entries s (l1 ++ l2) =
  surviving_entries s l1 ++ surviving_entries s l2.
Proof.
  unfold surviving_entries. now rewrite filter_app, map_app, filter_app.
Qed.

(** X19. A first-only search stops at the first entry that has
    attributes: when libldap answers success with a chain in which [m] is
    the first search-result entry whose decoded form has attributes,
    [searching] returns that entry and raises nothing, whatever follows
    [m] in the chain and whether or not the list could have been grown. *)
Theorem first_only_stops_at_first_entry (basestr : string) (scope : Z)
    (filterstr : option string) (attrs : option (list string))
    (attrsonly timeout sizelimit : Z) (st : State)
    (before after : list LDAPMessage) (m : LDAPMessage) :
  list_new_ok = true ->
  ldap_search_ext_s (log st) (ld (self st)) basestr scope
    (search_filter filterstr) attrs attrsonly (search_timelimit timeout)
    sizelimit = (LDAP_SUCCESS, before ++ m :: after) ->
  surviving_entries (self st) before = [] ->
  is_search_entry m = true ->
  has_attributes (LDAPEntry_FromLDAPMessage m (self st)) = true ->
  let out :=
    searching basestr scope filterstr attrs attrsonly 1 timeout sizelimit
      st in
  fst out = Some (PyLDAPEntry (LDAPEntry_FromLDAPMessage m (self st)))
  /\ pyerr (snd out) = pyerr st.
Proof.
  intros Hnew Hans Hbefore Hm Hat out. subst out.
  unfold searching, PyList_New0. rewrite Hnew. run. rewrite Hans. cbn.
  rewrite search_messages_first. cbn [self fst snd pyerr].
  rewrite surviving_entries_app, Hbefore. cbn [app].
  unfold surviving_entries. cbn [filter map]. rewrite Hm. cbn [map filter].
  rewrite Hat. split; reflexivity.
Qed.

(** X20. get_rootDSE on a connected session sends one BASE search for the
    empty name with the filter that asks for any object class, the six
    server attributes, values included, and no limits; when the answer is success
    and holds an entry with attributes, the first such entry is
    returned and nothing is raised. *)
Theorem get_rootDSE_request (st : State) (res : list LDAPMessage)
    (e : LDAPEntry) (rest : list LDAPEntry) :
  connected (self st) <> 0 ->
  list_new_ok = true ->
  let req :=
    c_search_ext_s (ld (self st)) "" LDAP_SCOPE_BASE (Some "(objectclass=*)")
      (Some ["namingContexts"; "altServer"; "supportedExtension";
             "supportedControl"; "supportedSASLMechanisms";
             "supportedLDAPVersion"])
      0 None 0 in
  let out := LDAPClient_GetRootDSE st in
  log (snd out) = log st ++ [req]
  /\ (ldap_search_ext_s (log st) (ld (self st)) "" LDAP_SCOPE_BASE
        (Some "(objectclass=*)") (Some rootdse_attrs) 0 None 0 =
      (LDAP_SUCCESS, res) ->
      surviving_entries (self st) res = e :: rest ->
      fst out = Some (PyLDAPEntry e) /\ pyerr (snd out) = pyerr st).
Proof.
  intros Hc Hnew req out. subst req out.
  apply Z.eqb_neq in Hc. unfold LDAPClient_GetRootDSE. run. rewrite Hc.
  split.
  - exact (searching_request "" LDAP_SCOPE_BASE (Some "(objectclass=*)")
             (Some rootdse_attrs) 0 1 0 0 st Hnew).
  - intros Hans Hsurv.
    unfold searching, PyList_New0. rewrite Hnew. run.
    unfold search_timelimit. cbn. rewrite Hans. cbn.
    rewrite search_messages_first. cbn [self fst snd pyerr].
    rewrite Hsurv. split; reflexivity.
Qed.

(** X21. get_entry never returns the error value once the session is
    connected and the argument parsed: whatever [searching] reports as
    NULL comes back as [None].  In particular a search status other than
    success and "no such object" gives [None] with [LDAPError] left in
    the error indicator. *)
Theorem get_entry_never_returns_null (dnstr : string) (st : State) :
  connected (self st) <> 0 ->
  let out := LDAPClient_GetEntry (ParseOk dnstr) st in
  let rc :=
    fst (ldap_search_ext_s (log st) (ld (self st)) dnstr LDAP_SCOPE_BASE
           None None 0 None 0) in
  fst out <> None
  /\ (list_new_ok = true ->
      rc <> LDAP_SUCCESS -> rc <> LDAP_NO_SUCH_OBJECT ->
      fst out = Some Py_None
      /\ pyerr (snd out) = Some (mk_err LDAPError (ldap_err2string rc))).
Proof.
  intros Hc out rc. subst out rc.
  apply Z.eqb_neq in Hc. unfold LDAPClient_GetEntry. run. rewrite Hc. run.
  split.
  - destruct (searching dnstr LDAP_SCOPE_BASE None None 0 1 0 0 st)
      as [[o|] st']; discriminate.
  - intros Hnew Hrc Hnso.
    destruct (ldap_search_ext_s (log st) (ld (self st)) dnstr LDAP_SCOPE_BASE
                None None 0 None 0) as [rc res] eqn:Hans.
    cbn [fst] in Hrc, Hnso |- *.
    unfold searching, PyList_New0. rewrite Hnew. run.
    unfold search_timelimit. cbn. rewrite Hans. cbn.
    apply Z.eqb_neq in Hrc, Hnso. rewrite Hrc, Hnso. cbn.
    split; reflexivity.
Qed.

End SearchEdges.

(** * The method table as a whole *)

Section Methods.

Context {L : LibLdap} {R : Runtime}.

#[local] Arguments own_call : simpl never.
#[local] Arguments is_connect : simpl never.

(** [searching] adds the search request to the calls, or nothing. *)
Lemma searching_calls (basestr : string) (scope : Z)
    (filterstr : option string) (attrs : option (list string))
    (attrsonly firstonly timeout sizelimit : Z) (st : State) :
  exists issued,
    log (snd (searching basestr scope filterstr attrs attrsonly firstonly
                timeout sizelimit st)) = log st ++ issued
    /\ (issued = [] \/
        exists f t,
          issued = [c_search_ext_s (ld (self st)) basestr scope f attrs
                      attrsonly t sizelimit]).
Proof.
  destruct list_new_ok eqn:Hnew.
  - eexists. split; [now apply searching_request|].
    right. eexists. eexists. reflexivity.
  - exists []. split; [|now left].
    unfold searching, PyList_New0. rewrite Hnew. run. now rewrite app_nil_r.
Qed.

(** X22. Arguments the parser rejects never reach libldap and never
    change the session, but the exception depends on the method: connect
    and del_entry raise AttributeError whether the session is connected or
    not, while get_entry and search raise AttributeError on a connected
    session and [LDAPExc_NotConnected] on an unconnected one, as they test
    the flag first. *)
Theorem rejected_arguments (e : PyErr) (auto : Automatic) (st : State) :
  let wrong (msg : string) :=
    mk_state (self st) (Some (mk_err PyExc_AttributeError msg)) (log st) in
  LDAPClient_Connect (ParseError e) st =
    (None, wrong "Wrong parameters (binddn<str>, password<str>)")
  /\ LDAPClient_DelEntry (ParseError e) st = (None, wrong "Wrong parameter.")
  /\ (connected (self st) <> 0 ->
      LDAPClient_GetEntry (ParseError e) st = (None, wrong "Wrong parameter.")
      /\ LDAPClient_Search auto (ParseError e) st =
         (None,
          wrong "Wrong parameters (base<str>, scope<str> [, filter<str>, attrlist<List>, timeout<int>, attrsonly<bool>])."))
  /\ (connected (self st) = 0 ->
      LDAPClient_GetEntry (ParseError e) st = (None, refused st)
      /\ LDAPClient_Search auto (ParseError e) st = (None, refused st)).
Proof.
  intros wrong. subst wrong.
  unfold LDAPClient_Connect, LDAPClient_DelEntry, LDAPClient_GetEntry,
    LDAPClient_Search, refused.
  run. split; [reflexivity|]. split; [reflexivity|]. split.
  - intros Hc. apply Z.eqb_neq in Hc. rewrite Hc. cbn.
    split; reflexivity.
  - intros Hc. rewrite Hc. cbn. split; reflexivity.
Qed.


(** X24. The del_entry method on a connected session always sends the
    delete for the name it was given, the empty name included; it returns
    [None] exactly when libldap reports success, and the error value with
    [LDAPError] raised, carrying the text of the status, otherwise. *)
Theorem del_entry_method_outcome (dnstr : string) (st : State) :
  connected (self st) <> 0 ->
  let out := LDAPClient_DelEntry (ParseOk dnstr) st in
  let rc := ldap_delete_ext_s (log st) (ld (self st)) dnstr in
  log (snd out) = log st ++ [c_delete_ext_s (ld (self st)) dnstr]
  /\ (fst out = Some Py_None <-> rc = LDAP_SUCCESS)
  /\ (rc = LDAP_SUCCESS -> pyerr (snd out) = pyerr st)
  /\ (rc <> LDAP_SUCCESS ->
      fst out = None
      /\ pyerr (snd out) = Some (mk_err LDAPError (ldap_err2string rc))).
Proof.
  intros Hc out rc. subst out rc.
  apply Z.eqb_neq in Hc.
  unfold LDAPClient_DelEntry, LDAPClient_DelEntryStringDN. run.
  rewrite Hc. cbn.
  destruct (ldap_delete_ext_s (log st) (ld (self st)) dnstr =? LDAP_SUCCESS)
    eqn:Hrc; cbn.
  - apply Z.eqb_eq in Hrc.
    split; [reflexivity|]. split; [tauto|].
    split; [reflexivity | contradiction].
  - apply Z.eqb_neq in Hrc.
    split; [reflexivity|]. split; [split; [discriminate | contradiction]|].
    split; [contradiction | intros _; split; reflexivity].
Qed.

End Methods.

(** * The properties on the concrete server *)

(** C1 on the scenario of three matching entries, one of them without
    readable attributes. *)
Lemma searching_collect_all_witness :
  fst (searching (L := demo_ldap LDAP_SUCCESS three_entries no_identity)
         (R := demo_runtime) "dc=example,dc=com" LDAP_SCOPE_SUBTREE
         (Some "(objectclass=*)") None 0 0 0 0 (start bound_client)) =
  Some (PyList
          [PyLDAPEntry (mk_entry "cn=a,dc=example,dc=com" ["cn"; "sn"]);
           PyLDAPEntry (mk_entry "cn=c,dc=example,dc=com" ["cn"])]).
Proof.
  apply (searching_collect_all
           (L := demo_ldap LDAP_SUCCESS three_entries no_identity)
           (R := demo_runtime) "dc=example,dc=com" LDAP_SCOPE_SUBTREE
           (Some "(objectclass=*)") None 0 0 0 (start bound_client)
           three_entries).
  - reflexivity.
  - intros l x. reflexivity.
  - reflexivity.
Defined.

(** C2. A collect-all search whose base does not exist: libldap answers
    "no such object", and [LDAPClient_Search] returns NULL with the error
    indicator empty, not an empty list. *)
Example search_no_such_object_returns_null :
  LDAPClient_Search (L := demo_ldap LDAP_NO_SUCH_OBJECT [] no_identity)
    (R := demo_runtime) (mk_automatic 0 0)
    (ParseOk (mk_search_args "cn=missing,dc=example,dc=com"
                LDAP_SCOPE_SUBTREE None None (Some 0) (Some 0) None))
    (start bound_client) =
  (None,
   mk_state bound_client None
     [c_search_ext_s 4096 "cn=missing,dc=example,dc=com" LDAP_SCOPE_SUBTREE
        None None 0 None 0]).
Proof. reflexivity. Qed.

(** C3, refuted as stated. Deleting the empty name on a connected session
    issues a delete call for it: the run does not leave the list of
    libldap calls as it was. *)
Lemma delentry_empty_dn_reaches_server :
  let out :=
    LDAPClient_DelEntryStringDN (L := demo_ldap LDAP_SUCCESS [] no_identity)
      (Some "") (start bound_client) in
  log (snd out) = [c_delete_ext_s 4096 ""]
  /\ ~ (fst out = 0 /\ log (snd out) = log (start bound_client)).
Proof.
  cbn. split; [reflexivity|]. intros [_ H]. discriminate H.
Qed.

(** C3 on a connected session and an absent name. *)
Lemma delentry_absent_dn_is_noop_witness :
  LDAPClient_DelEntryStringDN (L := demo_ldap 53 [] no_identity) None
    (start bound_client) = (0, start bound_client).
Proof.
  apply (delentry_absent_dn_is_noop (L := demo_ldap 53 [] no_identity) None
           (start bound_client)).
  cbn. lia.
Defined.

(** C4 on a session that never connected. *)
Lemma not_connected_guard_witness :
  LDAPClient_Whoami (L := demo_ldap LDAP_SUCCESS [] no_identity)
    (R := demo_runtime) (start fresh_client) =
  (None,
   mk_state fresh_client
     (Some (mk_err LDAPExc_NotConnected not_connected_msg)) []).
Proof.
  apply (not_connected_guard
           (L := demo_ldap LDAP_SUCCESS [] no_identity) (R := demo_runtime)
           (start fresh_client)).
  reflexivity.
Defined.

(** C5 on the scenario [ldaps://host/] with TLS requested. *)
Lemma init_ldaps_clears_tls_witness :
  let out :=
    LDAPClient_init (L := demo_ldap LDAP_SUCCESS [] no_identity)
      (R := demo_runtime)
      (ParseOk (mk_init_args (Some "ldaps://host/") (Some true)))
      (start (mk_client None 0 0 0)) in
  fst out = 0 /\ tls (self (snd out)) = 0.
Proof.
  pose proof (init_ldaps_clears_tls
                (L := demo_ldap LDAP_SUCCESS [] no_identity)
                (R := demo_runtime)
                (mk_init_args (Some "ldaps://host/") (Some true))
                (start (mk_client None 0 0 0)) eq_refl) as [Htls Hok].
  split.
  - apply Hok; reflexivity.
  - apply Htls. reflexivity.
Defined.

(** C6, refuted as stated. A session that is connected and calls connect
    again with credentials the server rejects gets the error, and its
    [connected] flag is still 1. *)
Lemma reconnect_failure_stays_connected :
  let out :=
    LDAPClient_Connect (L := demo_ldap 49 [] no_identity)
      (R := demo_runtime)
      (ParseOk (mk_connect_args (Some "cn=admin,dc=example,dc=com")
                  (Some "wrong") None None None None))
      (start bound_client) in
  fst out = None
  /\ pyerr (snd out) = Some (mk_err LDAPError "Invalid credentials")
  /\ ~ connected (self (snd out)) = 0.
Proof. cbn. repeat split. discriminate. Qed.

(** C6 on an unconnected session whose simple bind is rejected. *)
Lemma connect_failure_keeps_flag_witness :
  let out :=
    LDAPClient_Connect (L := demo_ldap 49 [] no_identity)
      (R := demo_runtime)
      (ParseOk (mk_connect_args (Some "cn=admin,dc=example,dc=com")
                  (Some "wrong") None None None None))
      (start fresh_client) in
  fst out = None
  /\ pyerr (snd out) = Some (mk_err LDAPError "Invalid credentials")
  /\ connected (self (snd out)) = 0.
Proof.
  apply (proj1 (connect_failure_keeps_flag
                  (L := demo_ldap 49 [] no_identity) (R := demo_runtime)
                  (ParseOk (mk_connect_args (Some "cn=admin,dc=example,dc=com")
                              (Some "wrong") None None None None))
                  (start fresh_client))
           [c_initialize demo_uri;
            c_set_option 4096 LDAP_OPT_PROTOCOL_VERSION LDAP_VERSION3]
           (c_sasl_bind_s 4096 (Some "cn=admin,dc=example,dc=com")
              (mk_berval 5 (Some "wrong")))
           [] 49).
  - reflexivity.
  - cbn. lia.
  - reflexivity.
  - unfold LDAP_SUCCESS. lia.
Defined.

(** C7. get_entry for an entry that exists but shows no attribute: the
    response is successful, its only entry is dropped, and
    [LDAPClient_GetEntry] returns the empty list object, not [None]. *)
Example getentry_no_surviving_entry_returns_list :
  fst (LDAPClient_GetEntry
         (L := demo_ldap LDAP_SUCCESS
                 [mk_msg LDAP_RES_SEARCH_ENTRY "cn=hidden,dc=example,dc=com" [];
                  mk_msg LDAP_RES_SEARCH_RESULT "" []] no_identity)
         (R := demo_runtime) (ParseOk "cn=hidden,dc=example,dc=com")
         (start bound_client)) =
  Some (PyList []).
Proof. reflexivity. Qed.

(** C8 on an anonymous bind. *)
Lemma whoami_identity_witness :
  fst (LDAPClient_Whoami (L := demo_ldap LDAP_SUCCESS [] no_identity)
         (R := demo_runtime) (start bound_client)) =
  Some (PyUnicode "anonym").
Proof.
  apply (proj1 (proj2 (whoami_identity
                         (L := demo_ldap LDAP_SUCCESS [] no_identity)
                         (R := demo_runtime) (start bound_client)
                         LDAP_SUCCESS no_identity
                         ltac:(cbn; lia) eq_refl))).
  - reflexivity.
  - reflexivity.
  - reflexivity.
Defined.

(** C9. A search called with base and scope only: the request carries
    whatever the two uninitialised variables held, here a time limit of 7
    seconds and a size limit of 3, instead of no limit. *)
Example search_absent_limits_are_indeterminate :
  log (snd (LDAPClient_Search (L := demo_ldap LDAP_SUCCESS [] no_identity)
              (R := demo_runtime) (mk_automatic 7 3)
              (ParseOk (mk_search_args "dc=example,dc=com"
                          LDAP_SCOPE_SUBTREE None None None None None))
              (start bound_client))) =
  [c_search_ext_s 4096 "dc=example,dc=com" LDAP_SCOPE_SUBTREE None None 0
     (Some (mk_timeval 7 0)) 3].
Proof. reflexivity. Qed.

(** C10 on closing a connected session. *)
Lemma session_frame_witness :
  let out :=
    LDAPClient_Close (L := demo_ldap LDAP_SUCCESS [] no_identity)
      (start bound_client) in
  connected (self (snd out)) = 0 /\ fst out = Some Py_None.
Proof.
  pose proof (session_frame (L := demo_ldap LDAP_SUCCESS [] no_identity)
                (R := demo_runtime) m_close (start bound_client))
    as [_ [_ Hclose]].
  destruct Hclose as [H0 [Hr _]].
  - cbn. lia.
  - split; [exact H0 | exact Hr].
Defined.

(** * The further properties on the concrete server *)

(** X1 on a connected session whose unbind succeeds. *)
Lemma close_twice_is_close_once_witness :
  LDAPClient_Close (L := demo_ldap LDAP_SUCCESS [] no_identity)
    (snd (LDAPClient_Close (L := demo_ldap LDAP_SUCCESS [] no_identity)
            (start bound_client))) =
  (Some Py_None,
   mk_state (mk_client (Some (PyUnicode demo_uri)) 4096 0 0) None
     [c_unbind_ext_s 4096]).
Proof.
  apply (close_twice_is_close_once
           (L := demo_ldap LDAP_SUCCESS [] no_identity) (start bound_client)).
  reflexivity.
Defined.

(** X2 on a connected session whose unbind is answered with status 1. *)
Lemma close_failure_stays_connected_witness :
  LDAPClient_Close (L := demo_ldap 1 [] no_identity) (start bound_client) =
  (None,
   mk_state bound_client (Some (mk_err LDAPError "Other error"))
     [c_unbind_ext_s 4096]).
Proof.
  apply (close_failure_stays_connected (L := demo_ldap 1 [] no_identity)
           (start bound_client)).
  - cbn. lia.
  - cbn. unfold LDAP_SUCCESS. lia.
Defined.

(** X3: whoami after a close. *)
Lemma close_then_refused_witness :
  fst (LDAPClient_Whoami (L := demo_ldap LDAP_SUCCESS [] no_identity)
         (R := demo_runtime)
         (snd (LDAPClient_Close (L := demo_ldap LDAP_SUCCESS [] no_identity)
                 (start bound_client)))) = None.
Proof.
  exact (f_equal fst
           (close_then_refused (L := demo_ldap LDAP_SUCCESS [] no_identity)
              (R := demo_runtime) m_whoami (start bound_client)
              eq_refl eq_refl)).
Defined.

(** X4 on a URI that is no LDAP URL. *)
Lemma init_rejects_bad_url_witness :
  LDAPClient_init (L := demo_ldap LDAP_SUCCESS [] no_identity)
    (R := demo_runtime)
    (ParseOk (mk_init_args (Some "http://example.com/") None))
    (start (mk_client (Some (PyUnicode "")) 0 0 0)) =
  (-1,
   mk_state (mk_client (Some (PyUnicode "")) 0 0 0)
     (Some (mk_err LDAPExc_UrlError "Bad URL")) []).
Proof.
  apply (init_rejects_bad_url (L := demo_ldap LDAP_SUCCESS [] no_identity)
           (R := demo_runtime)
           (mk_init_args (Some "http://example.com/") None)).
  cbn. lia.
Defined.

(** X5 on a plain [ldap] URI with TLS requested. *)
Lemma init_success_state_witness :
  let out :=
    LDAPClient_init (L := demo_ldap LDAP_SUCCESS [] no_identity)
      (R := demo_runtime)
      (ParseOk (mk_init_args (Some "ldap://host/") (Some true)))
      (start (mk_client (Some (PyUnicode "")) 0 0 0)) in
  uri (self (snd out)) = Some (PyUnicode "ldap://host/")
  /\ tls (self (snd out)) = 1.
Proof.
  pose proof (init_success_state
                (L := demo_ldap LDAP_SUCCESS [] no_identity)
                (R := demo_runtime)
                (mk_init_args (Some "ldap://host/") (Some true))
                (start (mk_client (Some (PyUnicode "")) 0 0 0)) eq_refl)
    as [Hu [_ [_ [Ht _]]]].
  split; [exact Hu|]. apply Ht. cbn. discriminate.
Defined.

(** X6: search on a session that was created and initialised. *)
Lemma new_then_init_is_unconnected_witness :
  let st2 :=
    snd (LDAPClient_init (L := demo_ldap LDAP_SUCCESS [] no_identity)
           (R := demo_runtime) (ParseOk (mk_init_args None None))
           (snd (LDAPClient_new (R := demo_runtime)
                   (start (mk_client None 0 0 0))))) in
  connected (self st2) = 0 /\ log st2 = [].
Proof.
  pose proof (new_then_init_is_unconnected
                (L := demo_ldap LDAP_SUCCESS [] no_identity)
                (R := demo_runtime) (ParseOk (mk_init_args None None))
                m_get_rootDSE (start (mk_client None 0 0 0))
                ltac:(cbn; discriminate) eq_refl) as [Hc [Hl _]].
  split; [exact Hc | exact Hl].
Defined.

(** X7 on an anonymous simple bind that succeeds. *)
Lemma connect_success_is_a_successful_bind_witness :
  exists hist b,
    log (snd (LDAPClient_Connect
                (L := demo_ldap LDAP_SUCCESS [] no_identity)
                (R := demo_runtime)
                (ParseOk (mk_connect_args None None None None None None))
                (start fresh_client))) = hist ++ [b]
    /\ is_bind_call b = true.
Proof.
  destruct (connect_success_is_a_successful_bind
              (L := demo_ldap LDAP_SUCCESS [] no_identity)
              (R := demo_runtime)
              (ParseOk (mk_connect_args None None None None None None))
              (start fresh_client) eq_refl)
    as [hist [b [Hlog [_ [Hk _]]]]].
  exists hist, b. split; [exact Hlog | exact Hk].
Defined.

(** X8 on a simple bind that is rejected. *)
Lemma connect_bind_is_last_call_witness :
  fst (LDAPClient_Connect (L := demo_ldap 49 [] no_identity)
         (R := demo_runtime) (ParseOk simple_bind_args)
         (start fresh_client)) = Some Py_None <->
  Some 49 = Some LDAP_SUCCESS.
Proof.
  apply (connect_bind_is_last_call (L := demo_ldap 49 [] no_identity)
           (R := demo_runtime) (ParseOk simple_bind_args)
           (start fresh_client)
           [c_initialize demo_uri;
            c_set_option 4096 LDAP_OPT_PROTOCOL_VERSION LDAP_VERSION3]
           []
           (c_sasl_bind_s 4096 (Some "cn=admin,dc=example,dc=com")
              (mk_berval 6 (Some "secret")))).
  - reflexivity.
  - cbn. lia.
  - reflexivity.
Defined.

(** X9 on a session that asked for StartTLS. *)
Lemma connect_binds_after_starttls_witness :
  exists hist0 h,
    call_handle
      (c_sasl_bind_s 4096 (Some "cn=admin,dc=example,dc=com")
         (mk_berval 6 (Some "secret"))) = Some h
    /\ (([c_initialize demo_uri;
          c_set_option 4096 LDAP_OPT_PROTOCOL_VERSION LDAP_VERSION3;
          c_tls_inplace 4096; c_start_tls_s 4096] =
         hist0 ++ [c_tls_inplace h]
         /\ ldap_tls_inplace (LibLdap := demo_ldap LDAP_SUCCESS [] no_identity)
              hist0 h <> 0)
        \/ ([c_initialize demo_uri;
             c_set_option 4096 LDAP_OPT_PROTOCOL_VERSION LDAP_VERSION3;
             c_tls_inplace 4096; c_start_tls_s 4096] =
            hist0 ++ [c_tls_inplace h; c_start_tls_s h]
            /\ ldap_tls_inplace
                 (LibLdap := demo_ldap LDAP_SUCCESS [] no_identity) hist0 h
               = 0
            /\ ldap_start_tls_s
                 (LibLdap := demo_ldap LDAP_SUCCESS [] no_identity)
                 (hist0 ++ [c_tls_inplace h]) h = LDAP_SUCCESS)).
Proof.
  apply (connect_binds_after_starttls
           (L := demo_ldap LDAP_SUCCESS [] no_identity)
           (R := demo_runtime) (ParseOk simple_bind_args)
           (start starttls_client)
           [c_initialize demo_uri;
            c_set_option 4096 LDAP_OPT_PROTOCOL_VERSION LDAP_VERSION3;
            c_tls_inplace 4096; c_start_tls_s 4096]
           []
           (c_sasl_bind_s 4096 (Some "cn=admin,dc=example,dc=com")
              (mk_berval 6 (Some "secret")))).
  - reflexivity.
  - reflexivity.
  - cbn. lia.
  - reflexivity.
Defined.

(** X10 on [ldaps://host/] with TLS requested. *)
Lemma ldaps_session_skips_starttls_witness :
  is_tls_call
    (c_sasl_bind_s 4096 (Some "cn=admin,dc=example,dc=com")
       (mk_berval 6 (Some "secret"))) = false
  /\ log (snd (LDAPClient_Connect
                 (L := demo_ldap LDAP_SUCCESS [] no_identity)
                 (R := demo_runtime) (ParseOk simple_bind_args)
                 (snd (LDAPClient_init
                         (L := demo_ldap LDAP_SUCCESS [] no_identity)
                         (R := demo_runtime)
                         (ParseOk (mk_init_args (Some "ldaps://host/")
                                     (Some true)))
                         (start (mk_client (Some (PyUnicode "")) 0 0 0))))))
     = [c_initialize "ldaps://host/";
        c_set_option 4096 LDAP_OPT_PROTOCOL_VERSION LDAP_VERSION3;
        c_sasl_bind_s 4096 (Some "cn=admin,dc=example,dc=com")
          (mk_berval 6 (Some "secret"))].
Proof.
  split; [|reflexivity].
  apply (ldaps_session_skips_starttls
           (L := demo_ldap LDAP_SUCCESS [] no_identity) (R := demo_runtime)
           (mk_init_args (Some "ldaps://host/") (Some true))
           (ParseOk simple_bind_args)
           (start (mk_client (Some (PyUnicode "")) 0 0 0))
           [c_initialize "ldaps://host/";
            c_set_option 4096 LDAP_OPT_PROTOCOL_VERSION LDAP_VERSION3]
           []).
  - reflexivity.
  - reflexivity.
  - reflexivity.
  - vm_compute. lia.
Defined.

(** X11 on an anonymous connect. *)
Lemma connect_uses_the_new_handle_witness :
  ld (self (snd (LDAPClient_Connect
                   (L := demo_ldap LDAP_SUCCESS [] no_identity)
                   (R := demo_runtime)
                   (ParseOk (mk_connect_args None None None None None None))
                   (start fresh_client)))) = 4096.
Proof.
  apply (connect_uses_the_new_handle
           (L := demo_ldap LDAP_SUCCESS [] no_identity) (R := demo_runtime)
           (mk_connect_args None None None None None None)
           (start fresh_client) demo_uri).
  reflexivity.
Defined.

(** X12 on the scenario connect anonymously, then whoami. *)
Lemma connect_then_whoami_witness :
  let st1 :=
    snd (LDAPClient_Connect (L := demo_ldap LDAP_SUCCESS [] no_identity)
           (R := demo_runtime)
           (ParseOk (mk_connect_args None None None None None None))
           (start fresh_client)) in
  connected (self st1) = 1
  /\ log (snd (LDAPClient_Whoami
                 (L := demo_ldap LDAP_SUCCESS [] no_identity)
                 (R := demo_runtime) st1)) =
     log st1 ++ [c_whoami_s (ld (self st1))].
Proof.
  apply (connect_then_whoami
           (L := demo_ldap LDAP_SUCCESS [] no_identity) (R := demo_runtime)
           (ParseOk (mk_connect_args None None None None None None))
           (start fresh_client)).
  reflexivity.
Defined.

(** X13 on a SASL connect. *)
Lemma connect_mechanism_selects_bind_witness :
  exists d,
    c_sasl_interactive_bind_s 4096 None "DIGEST-MD5" 8192 =
    c_sasl_interactive_bind_s 4096 None "DIGEST-MD5" d
    /\ create_sasl_defaults (Runtime := demo_runtime) 4096 "DIGEST-MD5" None
         (Some "admin") "" (Some "u:admin") = Some d.
Proof.
  apply (connect_mechanism_selects_bind
           (L := demo_ldap LDAP_SUCCESS [] no_identity) (R := demo_runtime)
           sasl_bind_args (start fresh_client)
           [c_initialize demo_uri;
            c_set_option 4096 LDAP_OPT_PROTOCOL_VERSION LDAP_VERSION3]
           []
           (c_sasl_interactive_bind_s 4096 None "DIGEST-MD5" 8192)).
  - reflexivity.
  - cbn. lia.
  - reflexivity.
Defined.

(** X14 on a runtime that cannot grow the list. *)
Lemma collect_all_is_all_or_nothing_witness :
  let out :=
    searching (L := demo_ldap LDAP_SUCCESS three_entries no_identity)
      (R := tight_runtime) "dc=example,dc=com" LDAP_SCOPE_SUBTREE None None
      0 0 0 0 (start bound_client) in
  (fst out =
   Some (PyList
           (map PyLDAPEntry
              (surviving_entries (R := tight_runtime) bound_client
                 three_entries)))
   /\ pyerr (snd out) = None)
  \/ (fst out = None
      /\ pyerr (snd out) = Some (mk_err PyExc_MemoryError "")).
Proof.
  apply (collect_all_is_all_or_nothing
           (L := demo_ldap LDAP_SUCCESS three_entries no_identity)
           (R := tight_runtime) "dc=example,dc=com" LDAP_SCOPE_SUBTREE None
           None 0 0 0 (start bound_client) three_entries).
  - reflexivity.
  - reflexivity.
Defined.

(** X15 on a search the server refuses with status 50. *)
Lemma search_error_status_witness :
  fst (searching (L := demo_ldap 50 [] no_identity) (R := demo_runtime)
         "dc=example,dc=com" LDAP_SCOPE_SUBTREE None None 0 0 0 0
         (start bound_client)) = None.
Proof.
  exact (f_equal fst
           (search_error_status (L := demo_ldap 50 [] no_identity)
              (R := demo_runtime) "dc=example,dc=com" LDAP_SCOPE_SUBTREE
              None None 0 0 0 0 (start bound_client) 50 []
              eq_refl eq_refl
              ltac:(unfold LDAP_SUCCESS; lia)
              ltac:(unfold LDAP_NO_SUCH_OBJECT; lia))).
Defined.

(** X16 on a runtime without memory. *)
Lemma search_without_memory_sends_nothing_witness :
  LDAPClient_GetRootDSE (L := demo_ldap LDAP_SUCCESS three_entries no_identity)
    (R := starved_runtime) (start bound_client) =
  (None, out_of_memory (start bound_client)).
Proof.
  apply (search_without_memory_sends_nothing
           (L := demo_ldap LDAP_SUCCESS three_entries no_identity)
           (R := starved_runtime) (mk_automatic 0 0)
           (mk_search_args "" 0 None None None None None) ""
           (start bound_client)).
  - reflexivity.
  - cbn. lia.
Defined.

(** X17 on a search with a timeout of 30 seconds. *)
Lemma search_timeout_dropped_without_memory_witness :
  log (snd (searching (L := demo_ldap LDAP_SUCCESS [] no_identity)
              (R := tight_runtime) "dc=example,dc=com" LDAP_SCOPE_SUBTREE
              None None 0 0 30 0 (start bound_client))) =
  [c_search_ext_s 4096 "dc=example,dc=com" LDAP_SCOPE_SUBTREE None None 0
     None 0].
Proof.
  apply (search_timeout_dropped_without_memory
           (L := demo_ldap LDAP_SUCCESS [] no_identity) (R := tight_runtime)
           "dc=example,dc=com" LDAP_SCOPE_SUBTREE None None 0 0 30 0
           (start bound_client)).
  - reflexivity.
  - reflexivity.
Defined.


(** X19 on the chain of three entries, read after its first entry was
    found without attributes. *)
Lemma first_only_stops_at_first_entry_witness :
  fst (searching
         (L := demo_ldap LDAP_SUCCESS
                 ([mk_msg LDAP_RES_SEARCH_ENTRY "cn=b,dc=example,dc=com" [];
                   mk_msg LDAP_RES_SEARCH_REFERENCE "ldap://other/" []] ++
                  mk_msg LDAP_RES_SEARCH_ENTRY "cn=c,dc=example,dc=com" ["cn"]
                  :: three_entries) no_identity)
         (R := tight_runtime) "dc=example,dc=com" LDAP_SCOPE_SUBTREE None
         None 0 1 0 0 (start bound_client)) =
  Some (PyLDAPEntry (mk_entry "cn=c,dc=example,dc=com" ["cn"])).
Proof.
  apply (first_only_stops_at_first_entry
           (L := demo_ldap LDAP_SUCCESS
                   ([mk_msg LDAP_RES_SEARCH_ENTRY "cn=b,dc=example,dc=com" [];
                     mk_msg LDAP_RES_SEARCH_REFERENCE "ldap://other/" []] ++
                    mk_msg LDAP_RES_SEARCH_ENTRY "cn=c,dc=example,dc=com"
                      ["cn"]
                    :: three_entries) no_identity)
           (R := tight_runtime) "dc=example,dc=com" LDAP_SCOPE_SUBTREE None
           None 0 0 0 (start bound_client)
           [mk_msg LDAP_RES_SEARCH_ENTRY "cn=b,dc=example,dc=com" [];
            mk_msg LDAP_RES_SEARCH_REFERENCE "ldap://other/" []]
           three_entries
           (mk_msg LDAP_RES_SEARCH_ENTRY "cn=c,dc=example,dc=com" ["cn"])).
  - reflexivity.
  - reflexivity.
  - reflexivity.
  - reflexivity.
  - reflexivity.
Defined.

(** X20 on a server whose root entry shows two attributes. *)
Lemma get_rootDSE_request_witness :
  fst (LDAPClient_GetRootDSE
         (L := demo_ldap LDAP_SUCCESS
                 [mk_msg LDAP_RES_SEARCH_ENTRY ""
                    ["namingContexts"; "supportedLDAPVersion"];
                  mk_msg LDAP_RES_SEARCH_RESULT "" []] no_identity)
         (R := demo_runtime) (start bound_client)) =
  Some (PyLDAPEntry
          (mk_entry "" ["namingContexts"; "supportedLDAPVersion"])).
Proof.
  apply (proj2 (get_rootDSE_request
                  (L := demo_ldap LDAP_SUCCESS
                          [mk_msg LDAP_RES_SEARCH_ENTRY ""
                             ["namingContexts"; "supportedLDAPVersion"];
                           mk_msg LDAP_RES_SEARCH_RESULT "" []] no_identity)
                  (R := demo_runtime) (start bound_client)
                  [mk_msg LDAP_RES_SEARCH_ENTRY ""
                     ["namingContexts"; "supportedLDAPVersion"];
                   mk_msg LDAP_RES_SEARCH_RESULT "" []]
                  (mk_entry "" ["namingContexts"; "supportedLDAPVersion"])
                  [] ltac:(cbn; lia) eq_refl)).
  - reflexivity.
  - reflexivity.
Defined.

(** X21 on a search the server refuses with status 50. *)
Lemma get_entry_never_returns_null_witness :
  let out :=
    LDAPClient_GetEntry (L := demo_ldap 50 [] no_identity)
      (R := demo_runtime) (ParseOk "cn=a,dc=example,dc=com")
      (start bound_client) in
  fst out = Some Py_None
  /\ pyerr (snd out) = Some (mk_err LDAPError "Other error").
Proof.
  apply (proj2 (get_entry_never_returns_null
                  (L := demo_ldap 50 [] no_identity) (R := demo_runtime)
                  "cn=a,dc=example,dc=com" (start bound_client)
                  ltac:(cbn; lia))).
  - reflexivity.
  - cbn. unfold LDAP_SUCCESS. lia.
  - cbn. unfold LDAP_NO_SUCH_OBJECT. lia.
Defined.

(** X22 on a connected session. *)
Lemma rejected_arguments_witness :
  LDAPClient_GetEntry (L := demo_ldap LDAP_SUCCESS [] no_identity)
    (R := demo_runtime)
    (ParseError (mk_err PyExc_TypeError "must be str, not int"))
    (start bound_client) =
  (None,
   mk_state bound_client
     (Some (mk_err PyExc_AttributeError "Wrong parameter.")) []).
Proof.
  apply (proj1 (proj2 (proj2 (rejected_arguments
                          (L := demo_ldap LDAP_SUCCESS [] no_identity)
                          (R := demo_runtime)
                          (mk_err PyExc_TypeError "must be str, not int")
                          (mk_automatic 0 0) (start bound_client))))).
  cbn. lia.
Defined.


(** X24 on a delete the server accepts. *)
Lemma del_entry_method_outcome_witness :
  fst (LDAPClient_DelEntry (L := demo_ldap LDAP_SUCCESS [] no_identity)
         (ParseOk "cn=a,dc=example,dc=com") (start bound_client)) =
  Some Py_None.
Proof.
  apply (proj1 (proj2 (del_entry_method_outcome
                         (L := demo_ldap LDAP_SUCCESS [] no_identity)
                         "cn=a,dc=example,dc=com" (start bound_client)
                         ltac:(cbn; lia)))).
  reflexivity.
Defined.
